(** * AsRelease: one upstream release of a software component

    A shallow embedding of [src/as-release.c] (AppStream): the release record,
    its enum codecs, the date/timestamp setters, and the XML and YAML
    loaders and emitters, followed by the properties proved about them.

    Conventions.
    - A [gchar *] that may be [NULL] is an [option string]; [None] is [NULL].
    - A [guint64] is a [Z] in [0, 2^64); a [gint64] or [long] is a [Z] in
      [-2^63, 2^63).  The implicit C conversions are written out
      ([to_guint64], [to_gint64]).
    - The private struct [AsReleasePrivate] is the state of a small monad
      that also collects the GLib log messages a call emits.
    - [g_return_if_fail (AS_IS_RELEASE (release))] always passes on a value
      of the record type and is left out. *)

From Stdlib Require Import ZArith String Ascii List Lia DecimalString.
From Stdlib Require DecimalN DecimalPos.
From stdpp Require Import base option strings gmap list.

Local Open Scope Z_scope.
#[local] Set Warnings "-register-all".

(** ** libc and GLib primitives used by the file *)

(** [g_strcmp0]: [strcmp] that accepts [NULL], which sorts before any string. *)
Definition g_strcmp0 (str1 str2 : option string) : Z :=
  match str1, str2 with
  | None, None => 0
  | None, Some _ => -1
  | Some _, None => 1
  | Some a, Some b =>
      match String.compare a b with Eq => 0 | Lt => -1 | Gt => 1 end
  end.

(** Conversion to [guint64]: reduction modulo [2^64]. *)
Definition to_guint64 (z : Z) : Z := z `mod` 2 ^ 64.

(** Conversion of a [guint64] to [gint64]: values from [2^63] on wrap to the
    negative range. *)
Definition to_gint64 (z : Z) : Z :=
  let w := z `mod` 2 ^ 64 in
  if w <? 2 ^ 63 then w else w - 2 ^ 64.

Definition LONG_MAX : Z := 2 ^ 63 - 1.
Definition LONG_MIN : Z := - 2 ^ 63.

Definition isspace (c : ascii) : bool :=
  let n := N_of_ascii c in
  ((n =? 32) || ((9 <=? n) && (n <=? 13)))%N.

Definition isdigit (c : ascii) : bool :=
  let n := N_of_ascii c in
  ((48 <=? n) && (n <=? 57))%N.

Definition digit_value (c : ascii) : Z := Z.of_N (N_of_ascii c) - 48.

Fixpoint skip_spaces (s : string) : string :=
  match s with
  | String c s' => if isspace c then skip_spaces s' else s
  | EmptyString => s
  end.

Fixpoint read_digits (acc : Z) (s : string) : Z :=
  match s with
  | String c s' =>
      if isdigit c then read_digits (10 * acc + digit_value c) s' else acc
  | EmptyString => acc
  end.

(** [atol]: leading white space, an optional sign, then the longest run of
    decimal digits; 0 when there is none.  A value outside [long] is
    undefined in C; glibc's [strtol], which [atol] calls, saturates. *)
Definition atol (nptr : string) : Z :=
  let s := skip_spaces nptr in
  let v :=
    match s with
    | String "-"%char s' => - read_digits 0 s'
    | String "+"%char s' => read_digits 0 s'
    | _ => read_digits 0 s
    end in
  Z.max LONG_MIN (Z.min LONG_MAX v).

(** [printf ("%" G_GUINT64_FORMAT)]: the decimal digits of a [guint64]. *)
Definition guint64_to_string (n : Z) : string :=
  NilZero.string_of_uint (N.to_uint (Z.to_N n)).

(** GLib log levels used by the file: [g_return_if_fail] logs at CRITICAL,
    [g_warning] at WARNING, [g_debug] at DEBUG.  None of them aborts. *)
Inductive GLogLevelFlags :=
  | G_LOG_LEVEL_CRITICAL
  | G_LOG_LEVEL_WARNING
  | G_LOG_LEVEL_DEBUG.

Record GLogMessage := { log_level : GLogLevelFlags; log_text : string }.

Definition g_critical (text : string) : GLogMessage :=
  {| log_level := G_LOG_LEVEL_CRITICAL; log_text := text |}.
Definition g_warning (text : string) : GLogMessage :=
  {| log_level := G_LOG_LEVEL_WARNING; log_text := text |}.
Definition g_debug (text : string) : GLogMessage :=
  {| log_level := G_LOG_LEVEL_DEBUG; log_text := text |}.

(** ["%s"] of a [gchar *]: GLib prints [(null)] for [NULL]. *)
Definition fmt_s (s : option string) : string := default "(null)" s.

(** ** Enumerations and their codecs *)

(** Modelled from the spec: the enumerations are declared in headers that
    are not under [src/]; their values are those of the data model
    (section 3) and the constants the code names.  [AsFormatStyle] is the
    style a context reports; the code only tests it against
    [AS_FORMAT_STYLE_CATALOG]. *)
Inductive AsReleaseKind :=
  | AS_RELEASE_KIND_UNKNOWN
  | AS_RELEASE_KIND_STABLE
  | AS_RELEASE_KIND_DEVELOPMENT.

Inductive AsUrgencyKind :=
  | AS_URGENCY_KIND_UNKNOWN
  | AS_URGENCY_KIND_LOW
  | AS_URGENCY_KIND_MEDIUM
  | AS_URGENCY_KIND_HIGH
  | AS_URGENCY_KIND_CRITICAL.

Inductive AsReleaseUrlKind :=
  | AS_RELEASE_URL_KIND_UNKNOWN
  | AS_RELEASE_URL_KIND_DETAILS.

Inductive AsFormatStyle :=
  | AS_FORMAT_STYLE_UNKNOWN
  | AS_FORMAT_STYLE_METAINFO
  | AS_FORMAT_STYLE_CATALOG.

Definition as_release_kind_to_string (kind : AsReleaseKind) : string :=
  match kind with
  | AS_RELEASE_KIND_STABLE => "stable"
  | AS_RELEASE_KIND_DEVELOPMENT => "development"
  | _ => "unknown"
  end.

Definition as_release_kind_from_string (kind_str : option string) : AsReleaseKind :=
  if g_strcmp0 kind_str (Some "stable") =? 0 then AS_RELEASE_KIND_STABLE
  else if g_strcmp0 kind_str (Some "development") =? 0 then AS_RELEASE_KIND_DEVELOPMENT
  else AS_RELEASE_KIND_UNKNOWN.

Definition as_urgency_kind_to_string (urgency_kind : AsUrgencyKind) : string :=
  match urgency_kind with
  | AS_URGENCY_KIND_LOW => "low"
  | AS_URGENCY_KIND_MEDIUM => "medium"
  | AS_URGENCY_KIND_HIGH => "high"
  | AS_URGENCY_KIND_CRITICAL => "critical"
  | _ => "unknown"
  end.

Definition as_urgency_kind_from_string (urgency_kind : option string) : AsUrgencyKind :=
  if g_strcmp0 urgency_kind (Some "low") =? 0 then AS_URGENCY_KIND_LOW
  else if g_strcmp0 urgency_kind (Some "medium") =? 0 then AS_URGENCY_KIND_MEDIUM
  else if g_strcmp0 urgency_kind (Some "high") =? 0 then AS_URGENCY_KIND_HIGH
  else if g_strcmp0 urgency_kind (Some "critical") =? 0 then AS_URGENCY_KIND_CRITICAL
  else AS_URGENCY_KIND_UNKNOWN.

Definition as_release_url_kind_to_string (kind : AsReleaseUrlKind) : string :=
  match kind with
  | AS_RELEASE_URL_KIND_DETAILS => "details"
  | _ => "unknown"
  end.

Definition as_release_url_kind_from_string (kind_str : option string) : AsReleaseUrlKind :=
  match kind_str with
  | None => AS_RELEASE_URL_KIND_DETAILS
  | Some _ =>
      if g_strcmp0 kind_str (Some "details") =? 0 then AS_RELEASE_URL_KIND_DETAILS
      else AS_RELEASE_URL_KIND_UNKNOWN
  end.

(** ** Trees read and written by the mappers *)

(** libxml2's [xmlNode], reduced to the fields the file reads: [type],
    [name], [properties], [children] (the [next]-linked list, in document
    order), the text content and the source line of [xmlGetLineNo]. *)
Inductive xmlElementType :=
  | XML_ELEMENT_NODE
  | XML_TEXT_NODE
  | XML_COMMENT_NODE.

Inductive xmlNode := XmlNode {
  xml_type : xmlElementType;
  xml_name : string;
  xml_properties : list (string * string);
  xml_children : list xmlNode;
  xml_content : option string;
  xml_line : Z
}.

(** GLib's [GNode] as the YAML reader builds it: a datum and the children
    in [next] order. *)
Inductive GNode := MkGNode {
  g_node_data : option string;
  g_node_children : list GNode
}.

(** What the YAML emitter has produced: scalars, mappings and sequences. *)
Inductive YamlValue :=
  | YamlScalar (value : string)
  | YamlMapping (entries : list (string * YamlValue))
  | YamlSequence (items : list YamlValue).

(** First binding of [key] in an association list (attributes of a node,
    entries of a mapping). *)
Fixpoint assoc_lookup {V : Type} (key : string) (l : list (string * V)) : option V :=
  match l with
  | [] => None
  | (k, v) :: l' => if String.eqb k key then Some v else assoc_lookup key l'
  end.

(** Modelled from the spec: the tree primitive "attribute get" of
    [as-xml.c], which is not under [src/]; [NULL] when the node has no
    attribute of that name. *)
Definition as_xml_get_prop_value (node : xmlNode) (prop_name : string) : option string :=
  assoc_lookup prop_name (xml_properties node).

(** Modelled from the spec: the tree primitive "attribute set" of
    [as-xml.c]; an absent value writes no attribute (the tree writer's
    convention for [NULL]). *)
Definition as_xml_add_text_prop (node : xmlNode) (name : string) (value : option string) : xmlNode :=
  match value with
  | None => node
  | Some v =>
      {| xml_type := xml_type node; xml_name := xml_name node;
         xml_properties := xml_properties node ++ [(name, v)];
         xml_children := xml_children node;
         xml_content := xml_content node; xml_line := xml_line node |}
  end.

(** A fresh element without attributes or children ([xmlNewNode]). *)
Definition xml_new_node (name : string) : xmlNode :=
  {| xml_type := XML_ELEMENT_NODE; xml_name := name; xml_properties := [];
     xml_children := []; xml_content := None; xml_line := 0 |}.

(** Appending children to a node ([xmlAddChild], in order). *)
Definition xml_add_children (parent : xmlNode) (nodes : list xmlNode) : xmlNode :=
  {| xml_type := xml_type parent; xml_name := xml_name parent;
     xml_properties := xml_properties parent;
     xml_children := xml_children parent ++ nodes;
     xml_content := xml_content parent; xml_line := xml_line parent |}.

(** Modelled from the spec: the tree primitive "node creation" with text
    ([as_xml_add_text_node] of [as-xml.c]): a child element holding [value]. *)
Definition as_xml_add_text_node (root : xmlNode) (name : string) (value : option string) : xmlNode :=
  xml_add_children root
    [{| xml_type := XML_ELEMENT_NODE; xml_name := name; xml_properties := [];
        xml_children := []; xml_content := value; xml_line := 0 |}].

(** Modelled from the spec: [as_yaml_emit_entry] of [as-yaml.c]; a key with
    its scalar, nothing for an absent value (fields are "emitted only if
    non-empty"). *)
Definition as_yaml_emit_entry (emitter : list (string * YamlValue)) (key : string)
    (value : option string) : list (string * YamlValue) :=
  match value with
  | None => emitter
  | Some v => emitter ++ [(key, YamlScalar v)]
  end.

(** Modelled from the spec: [as_yaml_emit_entry_timestamp] of [as-yaml.c];
    the key with the number in decimal. *)
Definition as_yaml_emit_entry_timestamp (emitter : list (string * YamlValue)) (key : string)
    (unixtime : Z) : list (string * YamlValue) :=
  emitter ++ [(key, YamlScalar (guint64_to_string unixtime))].

(** ** Collaborators *)

(** GLib's [GDateTime] and the repository's ISO-8601 reader
    ([as_iso8601_to_datetime], in [as-utils.c], not under [src/]), taken as
    an interface: the release code only creates, converts and formats
    date-times through these calls. *)
Class DateTimeOps := {
  GDateTime : Type;
  (** [NULL] when the instant is outside what [GDateTime] represents. *)
  g_date_time_new_from_unix_utc : Z -> option GDateTime;
  g_date_time_format_iso8601 : GDateTime -> option string;
  (** A [gint64]. *)
  g_date_time_to_unix : GDateTime -> Z;
  (** [NULL] when the text is not an ISO-8601 date. *)
  as_iso8601_to_datetime : option string -> option GDateTime
}.

(** The document context, the generic XML and YAML helpers, and the nested
    Issue and Artifact records: each is code outside [src/], used here only
    through the calls below. *)
Class TreeOps := {
  AsContext : Type;
  as_context_get_style : AsContext -> AsFormatStyle;
  as_context_get_filename : AsContext -> option string;
  as_context_localized_ht_set :
    option AsContext -> gmap string string -> string -> option string -> gmap string string;

  as_xml_dump_node_children : xmlNode -> option string;
  as_xml_get_node_locale_match : AsContext -> xmlNode -> option string;
  as_xml_parse_metainfo_description_node :
    AsContext -> xmlNode -> gmap string string -> gmap string string;
  as_xml_get_node_value : xmlNode -> option string;
  (** The description nodes the writer appends below the release node. *)
  as_xml_add_description_node : AsContext -> gmap string string -> bool -> list xmlNode;

  as_yaml_node_get_key : GNode -> option string;
  as_yaml_node_get_value : GNode -> option string;
  as_yaml_set_localized_table : AsContext -> GNode -> gmap string string -> gmap string string;
  (** The value emitted under the given key, if the table yields one. *)
  as_yaml_emit_long_localized_entry : gmap string string -> option YamlValue;

  AsIssue : Type;
  as_issue_new : AsIssue;
  as_issue_load_from_xml : AsIssue -> AsContext -> xmlNode -> AsIssue * bool;
  as_issue_to_xml_node : AsIssue -> AsContext -> xmlNode -> xmlNode;
  as_issue_load_from_yaml : AsIssue -> AsContext -> GNode -> AsIssue * bool;
  as_issue_emit_yaml : AsIssue -> AsContext -> YamlValue;

  AsArtifact : Type;
  as_artifact_new : AsArtifact;
  as_artifact_load_from_xml : AsArtifact -> AsContext -> xmlNode -> AsArtifact * bool;
  as_artifact_to_xml_node : AsArtifact -> AsContext -> xmlNode -> xmlNode;
  as_artifact_load_from_yaml : AsArtifact -> AsContext -> GNode -> AsArtifact * bool;
  as_artifact_emit_yaml : AsArtifact -> AsContext -> YamlValue
}.

(** ** The release record and the monad of its methods *)

Section Release.
Context `{DateTimeOps} `{TreeOps}.

(** [AsReleasePrivate], field by field.  [description] is the
    [GHashTable] from locale to markup; [issues] and [artifacts] are the
    [GPtrArray]s, in insertion order. *)
Record AsReleasePrivate := {
  priv_kind : AsReleaseKind;
  priv_version : option string;
  priv_description : gmap string string;
  priv_timestamp : Z;
  priv_date : option string;
  priv_date_eol : option string;
  priv_context : option AsContext;
  priv_desc_translatable : bool;
  priv_issues : list AsIssue;
  priv_artifacts : list AsArtifact;
  priv_url_details : option string;
  priv_urgency : AsUrgencyKind
}.

(** Assignments to single fields ([priv->field = v]). *)
Definition with_kind (v : AsReleaseKind) (p : AsReleasePrivate) : AsReleasePrivate :=
  {| priv_kind := v; priv_version := priv_version p;
     priv_description := priv_description p; priv_timestamp := priv_timestamp p;
     priv_date := priv_date p; priv_date_eol := priv_date_eol p;
     priv_context := priv_context p;
     priv_desc_translatable := priv_desc_translatable p;
     priv_issues := priv_issues p; priv_artifacts := priv_artifacts p;
     priv_url_details := priv_url_details p; priv_urgency := priv_urgency p |}.

Definition with_version (v : option string) (p : AsReleasePrivate) : AsReleasePrivate :=
  {| priv_kind := priv_kind p; priv_version := v;
     priv_description := priv_description p; priv_timestamp := priv_timestamp p;
     priv_date := priv_date p; priv_date_eol := priv_date_eol p;
     priv_context := priv_context p;
     priv_desc_translatable := priv_desc_translatable p;
     priv_issues := priv_issues p; priv_artifacts := priv_artifacts p;
     priv_url_details := priv_url_details p; priv_urgency := priv_urgency p |}.

Definition with_description (v : gmap string string) (p : AsReleasePrivate) : AsReleasePrivate :=
  {| priv_kind := priv_kind p; priv_version := priv_version p;
     priv_description := v; priv_timestamp := priv_timestamp p;
     priv_date := priv_date p; priv_date_eol := priv_date_eol p;
     priv_context := priv_context p;
     priv_desc_translatable := priv_desc_translatable p;
     priv_issues := priv_issues p; priv_artifacts := priv_artifacts p;
     priv_url_details := priv_url_details p; priv_urgency := priv_urgency p |}.

Definition with_timestamp (v : Z) (p : AsReleasePrivate) : AsReleasePrivate :=
  {| priv_kind := priv_kind p; priv_version := priv_version p;
     priv_description := priv_description p; priv_timestamp := v;
     priv_date := priv_date p; priv_date_eol := priv_date_eol p;
     priv_context := priv_context p;
     priv_desc_translatable := priv_desc_translatable p;
     priv_issues := priv_issues p; priv_artifacts := priv_artifacts p;
     priv_url_details := priv_url_details p; priv_urgency := priv_urgency p |}.

Definition with_date (v : option string) (p : AsReleasePrivate) : AsReleasePrivate :=
  {| priv_kind := priv_kind p; priv_version := priv_version p;
     priv_description := priv_description p; priv_timestamp := priv_timestamp p;
     priv_date := v; priv_date_eol := priv_date_eol p;
     priv_context := priv_context p;
     priv_desc_translatable := priv_desc_translatable p;
     priv_issues := priv_issues p; priv_artifacts := priv_artifacts p;
     priv_url_details := priv_url_details p; priv_urgency := priv_urgency p |}.

Definition with_date_eol (v : option string) (p : AsReleasePrivate) : AsReleasePrivate :=
  {| priv_kind := priv_kind p; priv_version := priv_version p;
     priv_description := priv_description p; priv_timestamp := priv_timestamp p;
     priv_date := priv_date p; priv_date_eol := v;
     priv_context := priv_context p;
     priv_desc_translatable := priv_desc_translatable p;
     priv_issues := priv_issues p; priv_artifacts := priv_artifacts p;
     priv_url_details := priv_url_details p; priv_urgency := priv_urgency p |}.

Definition with_context (v : option AsContext) (p : AsReleasePrivate) : AsReleasePrivate :=
  {| priv_kind := priv_kind p; priv_version := priv_version p;
     priv_description := priv_description p; priv_timestamp := priv_timestamp p;
     priv_date := priv_date p; priv_date_eol := priv_date_eol p;
     priv_context := v;
     priv_desc_translatable := priv_desc_translatable p;
     priv_issues := priv_issues p; priv_artifacts := priv_artifacts p;
     priv_url_details := priv_url_details p; priv_urgency := priv_urgency p |}.

Definition with_desc_translatable (v : bool) (p : AsReleasePrivate) : AsReleasePrivate :=
  {| priv_kind := priv_kind p; priv_version := priv_version p;
     priv_description := priv_description p; priv_timestamp := priv_timestamp p;
     priv_date := priv_date p; priv_date_eol := priv_date_eol p;
     priv_context := priv_context p;
     priv_desc_translatable := v;
     priv_issues := priv_issues p; priv_artifacts := priv_artifacts p;
     priv_url_details := priv_url_details p; priv_urgency := priv_urgency p |}.

Definition with_issues (v : list AsIssue) (p : AsReleasePrivate) : AsReleasePrivate :=
  {| priv_kind := priv_kind p; priv_version := priv_version p;
     priv_description := priv_description p; priv_timestamp := priv_timestamp p;
     priv_date := priv_date p; priv_date_eol := priv_date_eol p;
     priv_context := priv_context p;
     priv_desc_translatable := priv_desc_translatable p;
     priv_issues := v; priv_artifacts := priv_artifacts p;
     priv_url_details := priv_url_details p; priv_urgency := priv_urgency p |}.

Definition with_artifacts (v : list AsArtifact) (p : AsReleasePrivate) : AsReleasePrivate :=
  {| priv_kind := priv_kind p; priv_version := priv_version p;
     priv_description := priv_description p; priv_timestamp := priv_timestamp p;
     priv_date := priv_date p; priv_date_eol := priv_date_eol p;
     priv_context := priv_context p;
     priv_desc_translatable := priv_desc_translatable p;
     priv_issues := priv_issues p; priv_artifacts := v;
     priv_url_details := priv_url_details p; priv_urgency := priv_urgency p |}.

Definition with_url_details (v : option string) (p : AsReleasePrivate) : AsReleasePrivate :=
  {| priv_kind := priv_kind p; priv_version := priv_version p;
     priv_description := priv_description p; priv_timestamp := priv_timestamp p;
     priv_date := priv_date p; priv_date_eol := priv_date_eol p;
     priv_context := priv_context p;
     priv_desc_translatable := priv_desc_translatable p;
     priv_issues := priv_issues p; priv_artifacts := priv_artifacts p;
     priv_url_details := v; priv_urgency := priv_urgency p |}.

Definition with_urgency (v : AsUrgencyKind) (p : AsReleasePrivate) : AsReleasePrivate :=
  {| priv_kind := priv_kind p; priv_version := priv_version p;
     priv_description := priv_description p; priv_timestamp := priv_timestamp p;
     priv_date := priv_date p; priv_date_eol := priv_date_eol p;
     priv_context := priv_context p;
     priv_desc_translatable := priv_desc_translatable p;
     priv_issues := priv_issues p; priv_artifacts := priv_artifacts p;
     priv_url_details := priv_url_details p; priv_urgency := v |}.

(** [as_release_init]: the fields of a new release. *)
Definition as_release_init : AsReleasePrivate :=
  {| priv_kind := AS_RELEASE_KIND_STABLE; priv_version := None;
     priv_description := ∅; priv_timestamp := 0;
     priv_date := None; priv_date_eol := None; priv_context := None;
     priv_desc_translatable := true;
     priv_issues := []; priv_artifacts := [];
     priv_url_details := None; priv_urgency := AS_URGENCY_KIND_UNKNOWN |}.

(** The result of a call on a release: the returned value, the record
    after the call and the messages logged during it, or [Undefined] when
    the call runs into undefined behaviour of C (a [NULL] handed to
    [atol]). *)
Inductive Outcome (A : Type) :=
  | Returns (value : A) (priv : AsReleasePrivate) (log : list GLogMessage)
  | Undefined.
Arguments Returns {A} value priv log.
Arguments Undefined {A}.

Definition M (A : Type) : Type := AsReleasePrivate -> Outcome A.

Definition ret {A : Type} (a : A) : M A := fun p => Returns a p [].

Definition bind {A B : Type} (m : M A) (k : A -> M B) : M B :=
  fun p =>
    match m p with
    | Returns a p' log =>
        match k a p' with
        | Returns b p'' log' => Returns b p'' (log ++ log')
        | Undefined => Undefined
        end
    | Undefined => Undefined
    end.

(** Reading a field, storing into the record, logging, and faulting. *)
Definition gets {A : Type} (f : AsReleasePrivate -> A) : M A := fun p => Returns (f p) p [].
Definition modify (f : AsReleasePrivate -> AsReleasePrivate) : M unit :=
  fun p => Returns tt (f p) [].
Definition g_log (msg : GLogMessage) : M unit := fun p => Returns tt p [msg].
Definition undefined {A : Type} : M A := fun _ => Undefined.

(** A [for] loop over a [next]-linked list. *)
Fixpoint for_each {A : Type} (l : list A) (body : A -> M unit) : M unit :=
  match l with
  | [] => ret tt
  | x :: l' => bind (body x) (fun _ => for_each l' body)
  end.

End Release.

Arguments Returns {_ A} value priv log.
Arguments Undefined {_ A}.

(** The monad through stdpp's classes, for its [x ← c; k] and [c;; k]. *)
#[export] Instance release_ret `{TreeOps} : MRet M := fun A a => ret a.
#[export] Instance release_bind `{TreeOps} : MBind M := fun A B k m => bind m k.

(** ** Accessors and the date reconciler *)

Section Methods.
Context `{DateTimeOps} `{TreeOps}.

(** ["%li"] of a [long]. *)
Definition long_to_string (z : Z) : string :=
  if z <? 0 then "-" +:+ guint64_to_string (- z) else guint64_to_string z.

(** [g_date_time_format_iso8601] on a pointer that may be [NULL]: its
    [g_return_val_if_fail (datetime != NULL, NULL)] logs and yields [NULL]. *)
Definition format_iso8601 (time : option GDateTime) : M (option string) :=
  match time with
  | Some t => mret (g_date_time_format_iso8601 t)
  | None =>
      g_log (g_critical "g_date_time_format_iso8601: assertion 'datetime != NULL' failed");;
      mret None
  end.

Definition as_release_get_kind : M AsReleaseKind := gets priv_kind.
Definition as_release_set_kind (kind : AsReleaseKind) : M unit := modify (with_kind kind).

Definition as_release_get_version : M (option string) := gets priv_version.

(** [as_assign_string_safe (priv->version, version)] frees the old string
    and stores a copy of the new one, [NULL] for [NULL]. *)
Definition as_release_set_version (version : option string) : M unit :=
  modify (with_version version).

Definition as_release_get_timestamp : M Z := gets priv_timestamp.

(** [timestamp] is a [guint64]; [g_date_time_new_from_unix_utc] takes a
    [gint64]. *)
Definition as_release_set_timestamp (timestamp : Z) : M unit :=
  let time := g_date_time_new_from_unix_utc (to_gint64 timestamp) in
  modify (with_timestamp timestamp);;
  date ← format_iso8601 time;
  modify (with_date date).

Definition as_release_get_date : M (option string) := gets priv_date.

Definition as_release_set_date (date : option string) : M unit :=
  match date with
  | None => g_log (g_critical "as_release_set_date: assertion 'date != NULL' failed")
  | Some d =>
      match as_iso8601_to_datetime date with
      | Some time =>
          modify (with_timestamp (to_guint64 (g_date_time_to_unix time)));;
          modify (with_date date)
      | None => g_log (g_warning ("Tried to set invalid release date: " +:+ d))
      end
  end.

Definition as_release_get_date_eol : M (option string) := gets priv_date_eol.

Definition as_release_set_date_eol (date : option string) : M unit :=
  match date with
  | None => g_log (g_critical "as_release_set_date_eol: assertion 'date != NULL' failed")
  | Some _ => modify (with_date_eol date)
  end.

Definition as_release_get_timestamp_eol : M Z :=
  date_eol ← gets priv_date_eol;
  match date_eol with
  | None => mret 0
  | Some d =>
      match as_iso8601_to_datetime date_eol with
      | Some time => mret (to_guint64 (g_date_time_to_unix time))
      | None =>
          g_log (g_warning ("Unable to retrieve EOL timestamp from EOL date: " +:+ d));;
          mret 0
      end
  end.

Definition as_release_set_timestamp_eol (timestamp : Z) : M unit :=
  if timestamp =? 0 then mret tt
  else
    date_eol ← format_iso8601 (g_date_time_new_from_unix_utc (to_gint64 timestamp));
    modify (with_date_eol date_eol).

Definition as_release_get_urgency : M AsUrgencyKind := gets priv_urgency.
Definition as_release_set_urgency (urgency : AsUrgencyKind) : M unit :=
  modify (with_urgency urgency).

Definition as_release_set_description (description locale : option string) : M unit :=
  match description with
  | None => g_log (g_critical "as_release_set_description: assertion 'description != NULL' failed")
  | Some text =>
      modify (fun p =>
        with_description
          (as_context_localized_ht_set (priv_context p) (priv_description p) text locale) p)
  end.

Definition as_release_get_artifacts : M (list AsArtifact) := gets priv_artifacts.

(** [g_ptr_array_add]: at the end. *)
Definition as_release_add_artifact (artifact : AsArtifact) : M unit :=
  modify (fun p => with_artifacts (priv_artifacts p ++ [artifact]) p).

Definition as_release_get_issues : M (list AsIssue) := gets priv_issues.

Definition as_release_add_issue (issue : AsIssue) : M unit :=
  modify (fun p => with_issues (priv_issues p ++ [issue]) p).

Definition as_release_get_url (url_kind : AsReleaseUrlKind) : M (option string) :=
  match url_kind with
  | AS_RELEASE_URL_KIND_DETAILS => gets priv_url_details
  | _ => mret None
  end.

Definition as_release_set_url (url_kind : AsReleaseUrlKind) (url : option string) : M unit :=
  match url_kind with
  | AS_RELEASE_URL_KIND_DETAILS => modify (with_url_details url)
  | _ => mret tt
  end.

Definition as_release_get_context : M (option AsContext) := gets priv_context.
Definition as_release_set_context (context : option AsContext) : M unit :=
  modify (with_context context).

Definition as_release_description_translatable : M bool := gets priv_desc_translatable.
Definition as_release_set_description_translatable (translatable : bool) : M unit :=
  modify (with_desc_translatable translatable).

End Methods.

(** ** The XML mapper *)

Section XmlMapper.
Context `{DateTimeOps} `{TreeOps}.

(** Body of the loop over the children of an [artifacts] node. *)
Definition load_xml_artifact (ctx : AsContext) (iter2 : xmlNode) : M unit :=
  match xml_type iter2 with
  | XML_ELEMENT_NODE =>
      let '(artifact, ok) := as_artifact_load_from_xml as_artifact_new ctx iter2 in
      if ok then as_release_add_artifact artifact else mret tt
  | _ => mret tt
  end.

(** Body of the loop over the children of an [issues] node. *)
Definition load_xml_issue (ctx : AsContext) (iter2 : xmlNode) : M unit :=
  match xml_type iter2 with
  | XML_ELEMENT_NODE =>
      let '(issue, ok) := as_issue_load_from_xml as_issue_new ctx iter2 in
      if ok then as_release_add_issue issue else mret tt
  | _ => mret tt
  end.

(** The [description] branch. *)
Definition load_xml_description (ctx : AsContext) (iter : xmlNode) : M unit :=
  modify (with_description ∅);;
  match as_context_get_style ctx with
  | AS_FORMAT_STYLE_CATALOG =>
      let content := as_xml_dump_node_children iter in
      let lang := as_xml_get_node_locale_match ctx iter in
      match lang with
      | Some _ => as_release_set_description content lang
      | None => mret tt
      end
  | _ =>
      modify (fun p =>
        with_description
          (as_xml_parse_metainfo_description_node ctx iter (priv_description p)) p);;
      modify (with_desc_translatable true);;
      match as_xml_get_prop_value iter "translatable" with
      | Some prop =>
          modify (with_desc_translatable (negb (g_strcmp0 (Some prop) (Some "no") =? 0)))
      | None => mret tt
      end
  end.

(** Body of the loop over the children of the release node. *)
Definition load_xml_child (ctx : AsContext) (iter : xmlNode) : M unit :=
  match xml_type iter with
  | XML_ELEMENT_NODE =>
      if g_strcmp0 (Some (xml_name iter)) (Some "artifacts") =? 0 then
        for_each (xml_children iter) (load_xml_artifact ctx)
      else if g_strcmp0 (Some (xml_name iter)) (Some "description") =? 0 then
        load_xml_description ctx iter
      else if g_strcmp0 (Some (xml_name iter)) (Some "url") =? 0 then
        as_release_set_url AS_RELEASE_URL_KIND_DETAILS (as_xml_get_node_value iter)
      else if g_strcmp0 (Some (xml_name iter)) (Some "issues") =? 0 then
        for_each (xml_children iter) (load_xml_issue ctx)
      else mret tt
  | _ => mret tt
  end.

(** The [date] attribute. *)
Definition load_xml_date (ctx : AsContext) (node : xmlNode) : M unit :=
  match as_xml_get_prop_value node "date" with
  | Some prop =>
      match as_iso8601_to_datetime (Some prop) with
      | Some time =>
          modify (with_timestamp (to_guint64 (g_date_time_to_unix time)));;
          modify (with_date (Some prop))
      | None =>
          g_log (g_debug ("Invalid ISO-8601 date in releases at "
                          +:+ fmt_s (as_context_get_filename ctx)
                          +:+ " line " +:+ long_to_string (xml_line node)))
      end
  | None => mret tt
  end.

Definition as_release_load_from_xml (ctx : AsContext) (node : xmlNode) : M bool :=
  as_release_set_context (Some ctx);;
  match as_xml_get_prop_value node "type" with
  | Some prop => modify (with_kind (as_release_kind_from_string (Some prop)))
  | None => mret tt
  end;;
  as_release_set_version (as_xml_get_prop_value node "version");;
  load_xml_date ctx node;;
  match as_xml_get_prop_value node "date_eol" with
  | Some prop => modify (with_date_eol (Some prop))
  | None => mret tt
  end;;
  match as_xml_get_prop_value node "timestamp" with
  | Some prop => modify (with_timestamp (to_guint64 (atol prop)))
  | None => mret tt
  end;;
  match as_xml_get_prop_value node "urgency" with
  | Some prop => modify (with_urgency (as_urgency_kind_from_string (Some prop)))
  | None => mret tt
  end;;
  for_each (xml_children node) (load_xml_child ctx);;
  mret true.

(** The timestamp / date attribute of the release node. *)
Definition xml_emit_timestamp (ctx : AsContext) (timestamp : Z) (subnode : xmlNode) : M xmlNode :=
  if 0 <? timestamp then
    match as_context_get_style ctx with
    | AS_FORMAT_STYLE_CATALOG =>
        mret (as_xml_add_text_prop subnode "timestamp" (Some (guint64_to_string timestamp)))
    | _ =>
        time_str ← format_iso8601 (g_date_time_new_from_unix_utc (to_gint64 timestamp));
        mret (as_xml_add_text_prop subnode "date" time_str)
    end
  else mret subnode.

(** What follows the timestamp on the release node: end-of-life date,
    urgency, description, details URL, issues and artifacts. *)
Definition xml_emit_rest (ctx : AsContext) (priv : AsReleasePrivate) (subnode : xmlNode) : xmlNode :=
  let subnode :=
    match priv_date_eol priv with
    | Some _ => as_xml_add_text_prop subnode "date_eol" (priv_date_eol priv)
    | None => subnode
    end in
  let subnode :=
    match priv_urgency priv with
    | AS_URGENCY_KIND_UNKNOWN => subnode
    | urgency =>
        as_xml_add_text_prop subnode "urgency" (Some (as_urgency_kind_to_string urgency))
    end in
  let subnode :=
    xml_add_children subnode
      (as_xml_add_description_node ctx (priv_description priv) (priv_desc_translatable priv)) in
  let subnode :=
    match priv_url_details priv with
    | Some _ => as_xml_add_text_node subnode "url" (priv_url_details priv)
    | None => subnode
    end in
  let subnode :=
    if 0 <? Z.of_nat (length (priv_issues priv)) then
      xml_add_children subnode
        [fold_left (fun n_issues issue => as_issue_to_xml_node issue ctx n_issues)
           (priv_issues priv) (xml_new_node "issues")]
    else subnode in
  if 0 <? Z.of_nat (length (priv_artifacts priv)) then
    xml_add_children subnode
      [fold_left (fun n_artifacts artifact => as_artifact_to_xml_node artifact ctx n_artifacts)
         (priv_artifacts priv) (xml_new_node "artifacts")]
  else subnode.

(** [as_release_to_xml_node]: returns [root] with the new [release] child.
    The source attaches the child first and fills it through the pointer;
    here the child is filled and then attached, which gives the same tree. *)
Definition as_release_to_xml_node (ctx : AsContext) (root : xmlNode) : M xmlNode :=
  priv ← gets (fun p => p);
  let subnode := xml_new_node "release" in
  let subnode :=
    as_xml_add_text_prop subnode "type" (Some (as_release_kind_to_string (priv_kind priv))) in
  let subnode := as_xml_add_text_prop subnode "version" (priv_version priv) in
  subnode ← xml_emit_timestamp ctx (priv_timestamp priv) subnode;
  mret (xml_add_children root [xml_emit_rest ctx priv subnode]).

End XmlMapper.

(** ** The YAML mapper *)

Section YamlMapper.
Context `{DateTimeOps} `{TreeOps}.

(** Modelled from the spec: [as_yaml_print_unknown] of [as-yaml.c], the
    "unknown key" diagnostic; it reports and changes nothing. *)
Definition as_yaml_print_unknown (root : string) (key : option string) : M unit :=
  g_log (g_debug ("YAML: Unknown field '" +:+ root +:+ "/" +:+ fmt_s key +:+ "' found.")).

(** Body of the loop over the entries of the [url] mapping. *)
Definition load_yaml_url (urls_n : GNode) : M unit :=
  let c_key := as_yaml_node_get_key urls_n in
  let c_value := as_yaml_node_get_value urls_n in
  let url_kind := as_release_url_kind_from_string c_key in
  match url_kind, c_value with
  | AS_RELEASE_URL_KIND_UNKNOWN, _ => mret tt
  | _, None => mret tt
  | _, Some _ => as_release_set_url url_kind c_value
  end.

Definition load_yaml_issue (ctx : AsContext) (sn : GNode) : M unit :=
  let '(issue, ok) := as_issue_load_from_yaml as_issue_new ctx sn in
  if ok then as_release_add_issue issue else mret tt.

Definition load_yaml_artifact (ctx : AsContext) (sn : GNode) : M unit :=
  let '(artifact, ok) := as_artifact_load_from_yaml as_artifact_new ctx sn in
  if ok then as_release_add_artifact artifact else mret tt.

(** Body of the loop over the entries of the release mapping.  [atol] of
    a [NULL] value is undefined behaviour. *)
Definition load_yaml_entry (ctx : AsContext) (n : GNode) : M unit :=
  let key := as_yaml_node_get_key n in
  let value := as_yaml_node_get_value n in
  if g_strcmp0 key (Some "unix-timestamp") =? 0 then
    match value with
    | Some v => modify (with_timestamp (to_guint64 (atol v)))
    | None => undefined
    end
  else if g_strcmp0 key (Some "date") =? 0 then
    match as_iso8601_to_datetime value with
    | Some time => modify (with_timestamp (to_guint64 (g_date_time_to_unix time)))
    | None =>
        g_log (g_debug ("Invalid ISO-8601 release date in "
                        +:+ fmt_s (as_context_get_filename ctx)))
    end
  else if g_strcmp0 key (Some "date-eol") =? 0 then
    as_release_set_date_eol value
  else if g_strcmp0 key (Some "type") =? 0 then
    modify (with_kind (as_release_kind_from_string value))
  else if g_strcmp0 key (Some "version") =? 0 then
    as_release_set_version value
  else if g_strcmp0 key (Some "urgency") =? 0 then
    modify (with_urgency (as_urgency_kind_from_string value))
  else if g_strcmp0 key (Some "description") =? 0 then
    modify (fun p =>
      with_description (as_yaml_set_localized_table ctx n (priv_description p)) p)
  else if g_strcmp0 key (Some "url") =? 0 then
    for_each (g_node_children n) load_yaml_url
  else if g_strcmp0 key (Some "issues") =? 0 then
    for_each (g_node_children n) (load_yaml_issue ctx)
  else if g_strcmp0 key (Some "artifacts") =? 0 then
    for_each (g_node_children n) (load_yaml_artifact ctx)
  else as_yaml_print_unknown "release" key.

Definition as_release_load_from_yaml (ctx : AsContext) (node : GNode) : M bool :=
  as_release_set_context (Some ctx);;
  for_each (g_node_children node) (load_yaml_entry ctx);;
  mret true.

(** The [unix-timestamp] / [date] entry. *)
Definition yaml_emit_timestamp (ctx : AsContext) (timestamp : Z)
    (emitter : list (string * YamlValue)) : M (list (string * YamlValue)) :=
  if 0 <? timestamp then
    match as_context_get_style ctx with
    | AS_FORMAT_STYLE_CATALOG =>
        mret (as_yaml_emit_entry_timestamp emitter "unix-timestamp" timestamp)
    | _ =>
        time_str ← format_iso8601 (g_date_time_new_from_unix_utc (to_gint64 timestamp));
        mret (as_yaml_emit_entry emitter "date" time_str)
    end
  else mret emitter.

(** The entries after the timestamp: end-of-life date, urgency,
    description, the [url] mapping, and the issue and artifact sequences. *)
Definition yaml_emit_rest (ctx : AsContext) (priv : AsReleasePrivate)
    (emitter : list (string * YamlValue)) : list (string * YamlValue) :=
  let emitter := as_yaml_emit_entry emitter "date-eol" (priv_date_eol priv) in
  let emitter :=
    match priv_urgency priv with
    | AS_URGENCY_KIND_UNKNOWN => emitter
    | urgency => as_yaml_emit_entry emitter "urgency" (Some (as_urgency_kind_to_string urgency))
    end in
  let emitter :=
    match as_yaml_emit_long_localized_entry (priv_description priv) with
    | Some v => emitter ++ [("description", v)]
    | None => emitter
    end in
  let emitter :=
    match priv_url_details priv with
    | Some _ =>
        emitter ++
        [("url",
          YamlMapping
            (as_yaml_emit_entry []
               (as_release_url_kind_to_string AS_RELEASE_URL_KIND_DETAILS)
               (priv_url_details priv)))]
    | None => emitter
    end in
  let emitter :=
    if 0 <? Z.of_nat (length (priv_issues priv)) then
      emitter ++
      [("issues", YamlSequence (map (fun issue => as_issue_emit_yaml issue ctx) (priv_issues priv)))]
    else emitter in
  if 0 <? Z.of_nat (length (priv_artifacts priv)) then
    emitter ++
    [("artifacts",
      YamlSequence (map (fun artifact => as_artifact_emit_yaml artifact ctx) (priv_artifacts priv)))]
  else emitter.

(** [as_release_emit_yaml]: the mapping emitted for the release, entries
    in emission order. *)
Definition as_release_emit_yaml (ctx : AsContext) : M YamlValue :=
  priv ← gets (fun p => p);
  let emitter := as_yaml_emit_entry [] "version" (priv_version priv) in
  let emitter :=
    as_yaml_emit_entry emitter "type" (Some (as_release_kind_to_string (priv_kind priv))) in
  emitter ← yaml_emit_timestamp ctx (priv_timestamp priv) emitter;
  mret (YamlMapping (yaml_emit_rest ctx priv emitter)).

End YamlMapper.

(** ** A reference implementation of the collaborators

    Concrete collaborators on which the release code can be run.  The
    general properties below hold for every implementation of
    [DateTimeOps] and [TreeOps]; this one serves to evaluate them. *)

Module Reference.

(** Days since 1970-01-01 of a date of the proleptic Gregorian calendar,
    and back (the calendar of [GDateTime]). *)
Definition days_from_civil (y m d : Z) : Z :=
  let y := if m <=? 2 then y - 1 else y in
  let era := y / 400 in
  let yoe := y - era * 400 in
  let mp := if 2 <? m then m - 3 else m + 9 in
  let doy := (153 * mp + 2) / 5 + d - 1 in
  let doe := yoe * 365 + yoe / 4 - yoe / 100 + doy in
  era * 146097 + doe - 719468.

Definition civil_from_days (days : Z) : Z * Z * Z :=
  let z := days + 719468 in
  let era := z / 146097 in
  let doe := z - era * 146097 in
  let yoe := (doe - doe / 1460 + doe / 36524 - doe / 146096) / 365 in
  let doy := doe - (365 * yoe + yoe / 4 - yoe / 100) in
  let mp := (5 * doy + 2) / 153 in
  let d := doy - (153 * mp + 2) / 5 + 1 in
  let m := if mp <? 10 then mp + 3 else mp - 9 in
  let y := yoe + era * 400 in
  (if m <=? 2 then y + 1 else y, m, d).

Definition pad2 (n : Z) : string :=
  if n <? 10 then "0" +:+ guint64_to_string n else guint64_to_string n.

Definition pad4 (n : Z) : string :=
  if n <? 10 then "000" +:+ guint64_to_string n
  else if n <? 100 then "00" +:+ guint64_to_string n
  else if n <? 1000 then "0" +:+ guint64_to_string n
  else guint64_to_string n.

(** GLib represents the years 1 to 9999. *)
Definition unix_min : Z := -62135596800.
Definition unix_max : Z := 253402300799.

Definition new_from_unix_utc (t : Z) : option Z :=
  if (unix_min <=? t) && (t <=? unix_max) then Some t else None.

(** A UTC time without fraction prints as [YYYY-MM-DDTHH:MM:SSZ]. *)
Definition format_iso8601_utc (t : Z) : option string :=
  let '(y, m, d) := civil_from_days (t / 86400) in
  let s := t `mod` 86400 in
  Some (pad4 y +:+ "-" +:+ pad2 m +:+ "-" +:+ pad2 d +:+ "T"
        +:+ pad2 (s / 3600) +:+ ":" +:+ pad2 (s `mod` 3600 / 60) +:+ ":"
        +:+ pad2 (s `mod` 60) +:+ "Z").

Definition all_digits (s : string) : bool :=
  forallb isdigit (list_ascii_of_string s).

(** The number written at [start], [len] digits long. *)
Definition field (start len : nat) (s : string) : option Z :=
  let f := substring start len s in
  if (Nat.eqb (String.length f) len) && all_digits f then Some (read_digits 0 f) else None.

Definition sep (i : nat) (c : ascii) (s : string) : bool :=
  match String.get i s with
  | Some c' => Ascii.eqb c c'
  | None => false
  end.

Definition valid_date (y m d : Z) : bool :=
  (1 <=? y) && (1 <=? m) && (m <=? 12) && (1 <=? d)
  && (let '(y', m', d') := civil_from_days (days_from_civil y m d) in
      (y' =? y) && (m' =? m) && (d' =? d)).

(** Modelled from the spec: [as_iso8601_to_datetime] of [as-utils.c],
    "parses text as ISO-8601".  This reader takes calendar dates
    [YYYY-MM-DD] and the UTC date-times [YYYY-MM-DDTHH:MM:SSZ] that
    [format_iso8601_utc] prints; anything else, and [NULL], is rejected. *)
Definition iso8601_to_datetime (iso_date : option string) : option Z :=
  s ← iso_date;
  y ← field 0 4 s;
  m ← field 5 2 s;
  d ← field 8 2 s;
  if negb (sep 4 "-" s && sep 7 "-" s && valid_date y m d) then None
  else if Nat.eqb (String.length s) 10 then Some (days_from_civil y m d * 86400)
  else
    hh ← field 11 2 s;
    mm ← field 14 2 s;
    ss ← field 17 2 s;
    if Nat.eqb (String.length s) 20 && sep 10 "T" s && sep 13 ":" s && sep 16 ":" s
       && sep 19 "Z" s && (hh <? 24) && (mm <? 60) && (ss <? 60)
    then Some (days_from_civil y m d * 86400 + hh * 3600 + mm * 60 + ss)
    else None.

#[export] Instance date_time_ops : DateTimeOps := {|
  GDateTime := Z;
  g_date_time_new_from_unix_utc := new_from_unix_utc;
  g_date_time_format_iso8601 := format_iso8601_utc;
  g_date_time_to_unix := fun t => t;
  as_iso8601_to_datetime := iso8601_to_datetime
|}.

(** Modelled from the spec: the document context, which "supplies active
    style/locale" and a file name for diagnostics. *)
Record Context := {
  ctx_style : AsFormatStyle;
  ctx_filename : option string;
  ctx_locale : string
}.

(** Modelled from the spec: the Issue collaborator ([new], [load],
    [to_node], [load_yaml], [emit_yaml]); an issue is an identifier with an
    optional URL, and a node without text does not load. *)
Record Issue := { issue_id : option string; issue_url : option string }.

Definition issue_load_from_xml (issue : Issue) (ctx : Context) (node : xmlNode) : Issue * bool :=
  match xml_content node with
  | Some id =>
      ({| issue_id := Some id; issue_url := as_xml_get_prop_value node "url" |}, true)
  | None => (issue, false)
  end.

Definition issue_to_xml_node (issue : Issue) (ctx : Context) (root : xmlNode) : xmlNode :=
  xml_add_children root
    [as_xml_add_text_prop
       {| xml_type := XML_ELEMENT_NODE; xml_name := "issue"; xml_properties := [];
          xml_children := []; xml_content := issue_id issue; xml_line := 0 |}
       "url" (issue_url issue)].

(** A YAML entry is a node holding the key, with the value in its first
    child. *)
Definition yaml_key (n : GNode) : option string := g_node_data n.
Definition yaml_value (n : GNode) : option string :=
  match g_node_children n with
  | c :: _ => g_node_data c
  | [] => None
  end.

Definition yaml_child_value (key : string) (n : GNode) : option string :=
  match filter (fun c => yaml_key c = Some key) (g_node_children n) with
  | c :: _ => yaml_value c
  | [] => None
  end.

Definition issue_load_from_yaml (issue : Issue) (ctx : Context) (node : GNode) : Issue * bool :=
  match yaml_child_value "id" node with
  | Some id => ({| issue_id := Some id; issue_url := yaml_child_value "url" node |}, true)
  | None => (issue, false)
  end.

Definition issue_emit_yaml (issue : Issue) (ctx : Context) : YamlValue :=
  YamlMapping (as_yaml_emit_entry (as_yaml_emit_entry [] "id" (issue_id issue))
                 "url" (issue_url issue)).

(** Modelled from the spec: the Artifact collaborator, reduced to a
    download location. *)
Record Artifact := { artifact_location : option string }.

Definition artifact_load_from_xml (a : Artifact) (ctx : Context) (node : xmlNode) : Artifact * bool :=
  match xml_content node with
  | Some l => ({| artifact_location := Some l |}, true)
  | None => (a, false)
  end.

Definition artifact_to_xml_node (a : Artifact) (ctx : Context) (root : xmlNode) : xmlNode :=
  as_xml_add_text_node root "artifact" (artifact_location a).

Definition artifact_load_from_yaml (a : Artifact) (ctx : Context) (node : GNode) : Artifact * bool :=
  match yaml_child_value "location" node with
  | Some l => ({| artifact_location := Some l |}, true)
  | None => (a, false)
  end.

Definition artifact_emit_yaml (a : Artifact) (ctx : Context) : YamlValue :=
  YamlMapping (as_yaml_emit_entry [] "location" (artifact_location a)).

(** Modelled from the spec: the localized text table helpers of section
    4.3; the entry of a locale is keyed by its tag, ["C"] without one. *)
Definition localized_ht_set (ctx : option Context) (table : gmap string string)
    (value : string) (locale : option string) : gmap string string :=
  <[default "C" locale := value]> table.

Definition xml_locale_match (ctx : Context) (node : xmlNode) : option string :=
  match as_xml_get_prop_value node "lang" with
  | Some lang => Some lang
  | None => Some "C"
  end.

Definition xml_parse_metainfo_description (ctx : Context) (node : xmlNode)
    (table : gmap string string) : gmap string string :=
  match xml_content node with
  | Some text => <["C" := text]> table
  | None => table
  end.

Definition xml_description_nodes (ctx : Context) (table : gmap string string)
    (translatable : bool) : list xmlNode :=
  map (fun kv : string * string =>
         {| xml_type := XML_ELEMENT_NODE; xml_name := "description";
            xml_properties := [("lang", kv.1)]; xml_children := [];
            xml_content := Some kv.2; xml_line := 0 |})
      (map_to_list table).

Definition yaml_set_localized_table (ctx : Context) (node : GNode)
    (table : gmap string string) : gmap string string :=
  fold_left (fun t c =>
               match yaml_key c, yaml_value c with
               | Some k, Some v => <[k := v]> t
               | _, _ => t
               end)
            (g_node_children node) table.

Definition yaml_localized_value (table : gmap string string) : option YamlValue :=
  match map_to_list table with
  | [] => None
  | l => Some (YamlMapping (map (fun kv : string * string => (kv.1, YamlScalar kv.2)) l))
  end.

#[export] Instance tree_ops : TreeOps := {|
  AsContext := Context;
  as_context_get_style := ctx_style;
  as_context_get_filename := ctx_filename;
  as_context_localized_ht_set := localized_ht_set;
  as_xml_dump_node_children := xml_content;
  as_xml_get_node_locale_match := xml_locale_match;
  as_xml_parse_metainfo_description_node := xml_parse_metainfo_description;
  as_xml_get_node_value := xml_content;
  as_xml_add_description_node := xml_description_nodes;
  as_yaml_node_get_key := yaml_key;
  as_yaml_node_get_value := yaml_value;
  as_yaml_set_localized_table := yaml_set_localized_table;
  as_yaml_emit_long_localized_entry := yaml_localized_value;
  AsIssue := Issue;
  as_issue_new := {| issue_id := None; issue_url := None |};
  as_issue_load_from_xml := issue_load_from_xml;
  as_issue_to_xml_node := issue_to_xml_node;
  as_issue_load_from_yaml := issue_load_from_yaml;
  as_issue_emit_yaml := issue_emit_yaml;
  AsArtifact := Artifact;
  as_artifact_new := {| artifact_location := None |};
  as_artifact_load_from_xml := artifact_load_from_xml;
  as_artifact_to_xml_node := artifact_to_xml_node;
  as_artifact_load_from_yaml := artifact_load_from_yaml;
  as_artifact_emit_yaml := artifact_emit_yaml
|}.

(** Shorthands for building input trees. *)
Definition element (name : string) (props : list (string * string))
    (children : list xmlNode) (content : option string) : xmlNode :=
  {| xml_type := XML_ELEMENT_NODE; xml_name := name; xml_properties := props;
     xml_children := children; xml_content := content; xml_line := 1 |}.

Definition entry (key value : string) : GNode :=
  MkGNode (Some key) [MkGNode (Some value) []].

Definition catalog : Context :=
  {| ctx_style := AS_FORMAT_STYLE_CATALOG; ctx_filename := Some "catalog.xml";
     ctx_locale := "C" |}.

Definition metainfo : Context :=
  {| ctx_style := AS_FORMAT_STYLE_METAINFO; ctx_filename := Some "app.metainfo.xml";
     ctx_locale := "C" |}.

(** *** Sample inputs *)

(** A release dated 2023-11-14 through [as_release_set_date]. *)
Definition release_2023 : AsReleasePrivate :=
  with_date (Some "2023-11-14") (with_timestamp 1699920000 as_release_init).

(** A release node with a [date] and a [timestamp] attribute that name
    different instants, and one whose [date] is not a date. *)
Definition node_date_and_timestamp : xmlNode :=
  element "release"
    [("version", "1.2"); ("date", "2023-11-14"); ("timestamp", "1700000000")] [] None.

Definition node_bad_date : xmlNode :=
  element "release" [("version", "1.2"); ("date", "yesterday")] [] None.

(** A release published at 1700000000, emitted in both styles. *)
Definition release_1700000000 : AsReleasePrivate :=
  with_version (Some "1.2") (with_timestamp 1700000000 as_release_init).

(** An [issues] block with one issue that loads and one without text,
    which the reference issue loader refuses. *)
Definition issue_good : xmlNode := element "issue" [("url", "https://example.org/1")] [] (Some "bz#1").
Definition issue_bad : xmlNode := element "issue" [] [] None.
Definition node_issues : xmlNode :=
  element "release" [("version", "1.2")]
    [element "issues" [] [issue_good; issue_bad] None] None.

(** A release published in the first second of the year 10000, an
    instant [GDateTime] does not represent. *)
Definition release_year_10000 : AsReleasePrivate :=
  with_version (Some "9.9") (with_timestamp 253402300800 as_release_init).

(** A YAML release with a [date] key between two other keys. *)
Definition yaml_dated : GNode :=
  MkGNode None [entry "version" "1.2"; entry "date" "2023-11-14"; entry "type" "stable"].

End Reference.

(** ** More sample inputs for the reference collaborators *)

Module MoreSamples.
Import Reference.

(** Two [url] elements with a text node and a foreign element around them. *)
Definition node_two_urls : xmlNode :=
  element "release" [("version", "1.2")]
    [element "url" [] [] (Some "https://example.org/old");
     {| xml_type := XML_TEXT_NODE; xml_name := "text"; xml_properties := [];
        xml_children := []; xml_content := Some " "; xml_line := 2 |};
     element "url" [] [] (Some "https://example.org/new");
     element "flavour" [] [] (Some "vanilla")] None.


(** Attribute tokens the decoders do not know (they are case sensitive). *)
Definition node_unknown_tokens : xmlNode :=
  element "release" [("type", "Stable"); ("urgency", "urgent")] [] None.

(** An end-of-life date that is no date. *)
Definition node_bad_date_eol : xmlNode :=
  element "release" [("date_eol", "someday")] [] None.

(** An [artifacts] block with one artifact that loads and one without
    text, which the reference artifact loader refuses. *)
Definition artifact_good : xmlNode :=
  element "artifact" [] [] (Some "https://example.org/a.tar").
Definition artifact_bad : xmlNode := element "artifact" [] [] None.
Definition node_artifacts : xmlNode :=
  element "release" [] [element "artifacts" [] [artifact_bad; artifact_good] None] None.

(** A release with every attribute-borne field set. *)
Definition release_full : AsReleasePrivate :=
  with_urgency AS_URGENCY_KIND_HIGH
    (with_date_eol (Some "2030-01-01")
       (with_kind AS_RELEASE_KIND_DEVELOPMENT
          (with_version (Some "2.0~rc1")
             (with_date (Some "2023-11-14T22:13:20Z")
                (with_timestamp 1700000000 as_release_init))))).

(** A YAML mapping of keys the loader does not know. *)
Definition yaml_unknown_keys : GNode :=
  MkGNode None [entry "colour" "blue"; entry "Version" "1.2"].

(** A [url] mapping with a foreign key, the [details] key and an entry
    without key. *)
Definition yaml_urls : GNode :=
  MkGNode (Some "url")
    [entry "homepage" "https://example.org/";
     entry "details" "https://example.org/details";
     MkGNode None [MkGNode (Some "https://example.org/keyless") []]].

(** An [issues] sequence with one item that has an [id] and one that has
    not, which the reference issue loader refuses. *)
Definition yaml_issues : GNode :=
  MkGNode (Some "issues")
    [MkGNode None [entry "url" "https://example.org/2"];
     MkGNode None [entry "id" "bz#1"]].

(** A release node with a [timestamp] attribute and no [date]. *)
Definition node_timestamp_only : xmlNode :=
  element "release" [("version", "1.2"); ("timestamp", "1700000000")] [] None.

(** A YAML release whose [unix-timestamp] comes after its [date]. *)
Definition yaml_date_then_timestamp : GNode :=
  MkGNode None
    [entry "date" "2023-11-14"; entry "unix-timestamp" "1700000000";
     entry "version" "1.2"].

End MoreSamples.

(** ** Declarative readings used in the statements *)

Section Readings.
Context `{DateTimeOps} `{TreeOps}.

(** The attribute-borne fields of the record: what the attribute stage of
    the XML loader writes and the child stage must leave alone. *)
Definition attribute_fields (p : AsReleasePrivate) :=
  (priv_kind p, priv_version p, priv_timestamp p, priv_date p, priv_date_eol p,
   priv_urgency p).

(** A call [preserves f] when it always returns and the reading [f] of the
    record is the same after as before. *)
Definition preserves {A B : Type} (f : AsReleasePrivate -> B) (m : M A) : Prop :=
  forall p, exists a p' log, m p = Returns a p' log /\ f p' = f p.

(** The skip-on-failure policy as a filter: the issue an [issues] child
    yields, if it is an element and its own load succeeds. *)
Definition xml_issue_of (ctx : AsContext) (iter2 : xmlNode) : option AsIssue :=
  match xml_type iter2 with
  | XML_ELEMENT_NODE =>
      let '(issue, ok) := as_issue_load_from_xml as_issue_new ctx iter2 in
      if ok then Some issue else None
  | _ => None
  end.

(** The issues one child of the release node contributes: those of its
    children if it is an [issues] element, none otherwise. *)
Definition xml_issues_of_child (ctx : AsContext) (iter : xmlNode) : list AsIssue :=
  match xml_type iter with
  | XML_ELEMENT_NODE =>
      if bool_decide (xml_name iter = "issues")
      then omap (xml_issue_of ctx) (xml_children iter)
      else []
  | _ => []
  end.

(** All issues a release node yields, in document order. *)
Definition xml_loaded_issues (ctx : AsContext) (node : xmlNode) : list AsIssue :=
  flat_map (xml_issues_of_child ctx) (xml_children node).

(** The ISO-8601 text of a [guint64] timestamp as the emitters compute
    it: [NULL] when GLib cannot represent or format the instant. *)
Definition iso8601_of_timestamp (timestamp : Z) : option string :=
  match g_date_time_new_from_unix_utc (to_gint64 timestamp) with
  | Some time => g_date_time_format_iso8601 time
  | None => None
  end.

End Readings.

(** ** Declarative readings of the child stage of the XML loader *)

Section ChildReadings.
Context `{DateTimeOps} `{TreeOps}.

(** An element of the given name. *)
Definition xml_is_element_named (name : string) (n : xmlNode) : bool :=
  match xml_type n with
  | XML_ELEMENT_NODE => bool_decide (xml_name n = name)
  | _ => false
  end.

(** The children the loader acts on: elements named [artifacts],
    [description], [url] or [issues]. *)
Definition xml_child_is_handled (n : xmlNode) : bool :=
  xml_is_element_named "artifacts" n || xml_is_element_named "description" n
  || xml_is_element_named "url" n || xml_is_element_named "issues" n.

(** The artifact an [artifacts] child yields, if it is an element and its
    own load succeeds. *)
Definition xml_artifact_of (ctx : AsContext) (iter2 : xmlNode) : option AsArtifact :=
  match xml_type iter2 with
  | XML_ELEMENT_NODE =>
      let '(artifact, ok) := as_artifact_load_from_xml as_artifact_new ctx iter2 in
      if ok then Some artifact else None
  | _ => None
  end.

Definition xml_artifacts_of_child (ctx : AsContext) (iter : xmlNode) : list AsArtifact :=
  if xml_is_element_named "artifacts" iter
  then omap (xml_artifact_of ctx) (xml_children iter)
  else [].

(** All artifacts a release node yields, in document order. *)
Definition xml_loaded_artifacts (ctx : AsContext) (node : xmlNode) : list AsArtifact :=
  flat_map (xml_artifacts_of_child ctx) (xml_children node).

(** The description table one [description] element leaves behind.  In
    catalog style it holds at most the text of this element under the
    locale the context matched; in any other style it is what the
    metainfo parser makes of this element, starting from an empty table. *)
Definition xml_description_of (ctx : AsContext) (iter : xmlNode) : gmap string string :=
  match as_context_get_style ctx with
  | AS_FORMAT_STYLE_CATALOG =>
      match as_xml_get_node_locale_match ctx iter, as_xml_dump_node_children iter with
      | Some lang, Some text => as_context_localized_ht_set (Some ctx) ∅ text (Some lang)
      | _, _ => ∅
      end
  | _ => as_xml_parse_metainfo_description_node ctx iter ∅
  end.

(** The translatable flag one [description] element leaves behind. *)
Definition xml_translatable_of (ctx : AsContext) (old : bool) (iter : xmlNode) : bool :=
  match as_context_get_style ctx with
  | AS_FORMAT_STYLE_CATALOG => old
  | _ =>
      match as_xml_get_prop_value iter "translatable" with
      | Some prop => negb (bool_decide (prop = "no"))
      | None => true
      end
  end.

(** The last child of a list that satisfies a test. *)
Definition last_such (test : xmlNode -> bool) (l : list xmlNode) : option xmlNode :=
  last (List.filter test l).

(** A node with other children. *)
Definition xml_with_children (node : xmlNode) (children : list xmlNode) : xmlNode :=
  {| xml_type := xml_type node; xml_name := xml_name node;
     xml_properties := xml_properties node; xml_children := children;
     xml_content := xml_content node; xml_line := xml_line node |}.

End ChildReadings.

(** ** Declarative readings of the emitted release node *)

Section EmitReadings.
Context `{DateTimeOps} `{TreeOps}.

(** The attribute a writer call adds: none for [NULL]. *)
Definition opt_attr (name : string) (value : option string) : list (string * string) :=
  match value with
  | Some v => [(name, v)]
  | None => []
  end.

(** The urgency as the emitters print it: nothing for [Unknown]. *)
Definition urgency_text (urgency : AsUrgencyKind) : option string :=
  match urgency with
  | AS_URGENCY_KIND_UNKNOWN => None
  | _ => Some (as_urgency_kind_to_string urgency)
  end.

(** The attribute the release node gets for the instant of the release. *)
Definition xml_timestamp_attribute (ctx : AsContext) (timestamp : Z) : list (string * string) :=
  if 0 <? timestamp then
    match as_context_get_style ctx with
    | AS_FORMAT_STYLE_CATALOG => [("timestamp", guint64_to_string timestamp)]
    | _ => opt_attr "date" (iso8601_of_timestamp timestamp)
    end
  else [].

(** The [issues] and [artifacts] wrapper elements, filled in order. *)
Definition xml_issues_wrapper (ctx : AsContext) (issues : list AsIssue) : xmlNode :=
  fold_left (fun n_issues issue => as_issue_to_xml_node issue ctx n_issues)
    issues (xml_new_node "issues").

Definition xml_artifacts_wrapper (ctx : AsContext) (artifacts : list AsArtifact) : xmlNode :=
  fold_left (fun n_artifacts artifact => as_artifact_to_xml_node artifact ctx n_artifacts)
    artifacts (xml_new_node "artifacts").

End EmitReadings.

(** ** Declarative readings of the YAML mapper *)

Section YamlReadings.
Context `{DateTimeOps} `{TreeOps}.

(** The keys the YAML loader acts on, in the order it tests them. *)
Definition yaml_known_keys : list string :=
  ["unix-timestamp"; "date"; "date-eol"; "type"; "version"; "urgency";
   "description"; "url"; "issues"; "artifacts"].

(** The keys the YAML emitter can write, in the order it writes them. *)
Definition yaml_emitted_keys : list string :=
  ["version"; "type"; "unix-timestamp"; "date"; "date-eol"; "urgency";
   "description"; "url"; "issues"; "artifacts"].

(** An entry of a [url] mapping that sets the details URL: its key is
    absent or ["details"], and it has a value. *)
Definition yaml_url_accepted (urls_n : GNode) : bool :=
  bool_decide (as_yaml_node_get_key urls_n = None
               \/ as_yaml_node_get_key urls_n = Some "details")
  && bool_decide (as_yaml_node_get_value urls_n <> None).

(** The issue, resp. artifact, an item of a YAML sequence yields, if its
    own load succeeds. *)
Definition yaml_issue_of (ctx : AsContext) (sn : GNode) : option AsIssue :=
  let '(issue, ok) := as_issue_load_from_yaml as_issue_new ctx sn in
  if ok then Some issue else None.

Definition yaml_artifact_of (ctx : AsContext) (sn : GNode) : option AsArtifact :=
  let '(artifact, ok) := as_artifact_load_from_yaml as_artifact_new ctx sn in
  if ok then Some artifact else None.

End YamlReadings.

(** * Properties *)

(** [g_strcmp0] returns 0 exactly on equal arguments. *)
Lemma g_strcmp0_eq (a b : option string) : (g_strcmp0 a b =? 0) = bool_decide (a = b).
Proof.
  destruct a as [a|], b as [b|]; simpl; try reflexivity.
  destruct (String.compare a b) eqn:E.
  - apply String.compare_eq_iff in E. subst. by rewrite bool_decide_true.
  - rewrite bool_decide_false; [done|]. intros [= ->].
    pose proof (String.compare_antisym b b) as A. rewrite E in A. discriminate.
  - rewrite bool_decide_false; [done|]. intros [= ->].
    pose proof (String.compare_antisym b b) as A. rewrite E in A. discriminate.
Qed.


(** ** Enum codecs *)

Lemma as_release_kind_from_string_default (s : option string) :
  s <> Some "stable" -> s <> Some "development" ->
  as_release_kind_from_string s = AS_RELEASE_KIND_UNKNOWN.
Proof.
  intros H1 H2. unfold as_release_kind_from_string.
  rewrite !g_strcmp0_eq, !bool_decide_false by assumption. reflexivity.
Qed.

Lemma as_urgency_kind_from_string_default (s : option string) :
  s <> Some "low" -> s <> Some "medium" -> s <> Some "high" -> s <> Some "critical" ->
  as_urgency_kind_from_string s = AS_URGENCY_KIND_UNKNOWN.
Proof.
  intros H1 H2 H3 H4. unfold as_urgency_kind_from_string.
  rewrite !g_strcmp0_eq, !bool_decide_false by assumption. reflexivity.
Qed.


(** C2, as the code has it. The URL-kind decoder returns [Details] exactly
    for an absent input and for ["details"]; every other string, the empty
    one and ["bogus"] included, decodes to [Unknown]. *)
Theorem url_kind_from_string_cases :
  (forall kind_str : option string,
      as_release_url_kind_from_string kind_str =
      if bool_decide (kind_str = None \/ kind_str = Some "details")
      then AS_RELEASE_URL_KIND_DETAILS else AS_RELEASE_URL_KIND_UNKNOWN)
  /\ as_release_url_kind_from_string None = AS_RELEASE_URL_KIND_DETAILS
  /\ as_release_url_kind_from_string (Some "") = AS_RELEASE_URL_KIND_UNKNOWN
  /\ as_release_url_kind_from_string (Some "bogus") = AS_RELEASE_URL_KIND_UNKNOWN.
Proof.
  split; [|split; [|split]]; try reflexivity.
  intros [s|]; unfold as_release_url_kind_from_string.
  - rewrite g_strcmp0_eq.
    destruct (decide (Some s = Some "details")) as [E|E].
    + rewrite !bool_decide_true by auto. reflexivity.
    + rewrite !bool_decide_false; [reflexivity| |assumption].
      intros [?|?]; [discriminate|contradiction].
  - rewrite bool_decide_true by auto. reflexivity.
Qed.

(** C2 fails on the empty string: it is not [NULL], it is not ["details"],
    so the decoder answers [Unknown], not [Details]. *)
Lemma url_kind_from_empty_string_not_details :
  as_release_url_kind_from_string (Some "") <> AS_RELEASE_URL_KIND_DETAILS.
Proof. discriminate. Qed.

(** ** The date reconciler *)

Section DateReconciler.
Context `{DateTimeOps} `{TreeOps}.

(** What [as_release_set_timestamp] does to the record, for any timestamp:
    it stores the timestamp and overwrites the date with the formatted
    instant ([NULL] when GLib cannot represent or format it). *)
Lemma as_release_set_timestamp_result (timestamp : Z) (priv : AsReleasePrivate) :
  exists log,
    as_release_set_timestamp timestamp priv =
    Returns tt
      (with_date
         (match g_date_time_new_from_unix_utc (to_gint64 timestamp) with
          | Some t => g_date_time_format_iso8601 t
          | None => None
          end)
         (with_timestamp timestamp priv))
      log.
Proof.
  unfold as_release_set_timestamp, format_iso8601.
  destruct (g_date_time_new_from_unix_utc (to_gint64 timestamp)); eexists; reflexivity.
Qed.

(** Whatever GLib does with the instant 0, the call cannot keep the date:
    two releases that differ only in their date have the same date
    afterwards. *)
Lemma as_release_set_timestamp_zero_forgets_date :
  ~ (forall priv : AsReleasePrivate,
        exists priv' log,
          as_release_set_timestamp 0 priv = Returns tt priv' log
          /\ priv_date priv' = priv_date priv).
Proof.
  intros Frame.
  destruct (Frame (with_date (Some "2001-01-01") as_release_init)) as (p1 & l1 & E1 & D1).
  destruct (Frame (with_date (Some "2002-02-02") as_release_init)) as (p2 & l2 & E2 & D2).
  destruct (as_release_set_timestamp_result 0 (with_date (Some "2001-01-01") as_release_init))
    as [l1' R1].
  destruct (as_release_set_timestamp_result 0 (with_date (Some "2002-02-02") as_release_init))
    as [l2' R2].
  rewrite R1 in E1. rewrite R2 in E2.
  injection E1 as <- _. injection E2 as <- _.
  simpl in D1, D2. rewrite D1 in D2. discriminate.
Qed.

(** C1, as the code has it. [as_release_set_timestamp (release, 0)] stores
    0 and overwrites the date with the ISO-8601 text of the instant 0, as
    it does for every other timestamp: the date after the call does not
    depend on the date before it, and no other field changes. *)
Theorem as_release_set_timestamp_zero_overwrites_date (priv : AsReleasePrivate) :
  exists priv' log,
    as_release_set_timestamp 0 priv = Returns tt priv' log
    /\ priv_timestamp priv' = 0
    /\ priv_date priv' =
       match g_date_time_new_from_unix_utc 0 with
       | Some t => g_date_time_format_iso8601 t
       | None => None
       end
    /\ priv' = with_date (priv_date priv') (with_timestamp 0 priv).
Proof.
  destruct (as_release_set_timestamp_result 0 priv) as [log E].
  eexists _, log. split; [exact E|]. repeat split.
Qed.

(** C4. [as_release_set_date] with a text that is not an ISO-8601 date
    returns normally, logs one warning and leaves the whole record, the
    date and the timestamp in particular, as it was; with a text that
    parses it stores the instant as the timestamp and the text itself as
    the date, and logs nothing. *)
Theorem as_release_set_date_cases (priv : AsReleasePrivate) (date : string) :
  (as_iso8601_to_datetime (Some date) = None ->
   exists msg,
     as_release_set_date (Some date) priv = Returns tt priv [msg]
     /\ log_level msg = G_LOG_LEVEL_WARNING)
  /\ (forall time : GDateTime,
        as_iso8601_to_datetime (Some date) = Some time ->
        exists priv',
          as_release_set_date (Some date) priv = Returns tt priv' []
          /\ priv_timestamp priv' = to_guint64 (g_date_time_to_unix time)
          /\ priv_date priv' = Some date).
Proof.
  split.
  - intros E. unfold as_release_set_date. rewrite E.
    eexists. split; reflexivity.
  - intros time E. unfold as_release_set_date. rewrite E.
    eexists. repeat split.
Qed.

(** C7. [as_release_get_timestamp_eol] returns 0 without a message when
    [date_eol] is unset, 0 with a warning when [date_eol] does not parse,
    and the instant of [date_eol] otherwise.  It never writes to the
    record, so nothing is cached: the answer is computed from [date_eol]
    on each call, and a call after [date_eol] was replaced answers for the
    new text. *)
Theorem as_release_get_timestamp_eol_cases (priv : AsReleasePrivate) :
  (priv_date_eol priv = None ->
   as_release_get_timestamp_eol priv = Returns 0 priv [])
  /\ (forall d : string,
        priv_date_eol priv = Some d -> as_iso8601_to_datetime (Some d) = None ->
        exists msg,
          as_release_get_timestamp_eol priv = Returns 0 priv [msg]
          /\ log_level msg = G_LOG_LEVEL_WARNING)
  /\ (forall (d : string) (time : GDateTime),
        priv_date_eol priv = Some d -> as_iso8601_to_datetime (Some d) = Some time ->
        as_release_get_timestamp_eol priv =
        Returns (to_guint64 (g_date_time_to_unix time)) priv [])
  /\ (forall (d' : string) (time' : GDateTime),
        as_iso8601_to_datetime (Some d') = Some time' ->
        exists log,
          (as_release_get_timestamp_eol;;
           as_release_set_date_eol (Some d');;
           as_release_get_timestamp_eol) priv =
          Returns (to_guint64 (g_date_time_to_unix time')) (with_date_eol (Some d') priv) log).
Proof.
  unfold as_release_get_timestamp_eol.
  split; [|split; [|split]].
  - intros E. cbv [mbind release_bind bind gets mret release_ret ret]. rewrite E. reflexivity.
  - intros d E P. cbv [mbind release_bind bind gets mret release_ret ret g_log].
    rewrite E, P. eexists. split; reflexivity.
  - intros d time E P. cbv [mbind release_bind bind gets mret release_ret ret].
    rewrite E, P. reflexivity.
  - intros d' time' P.
    cbv [mbind release_bind bind gets mret release_ret ret g_log as_release_set_date_eol modify].
    destruct (priv_date_eol priv) as [d|]; [destruct (as_iso8601_to_datetime (Some d))|];
      cbn [priv_date_eol with_date_eol]; rewrite P; eexists; reflexivity.
Qed.

End DateReconciler.

(** ** Frame lemmas for the monad *)

Section Frames.
Context `{DateTimeOps} `{TreeOps}.
Context {B : Type} (f : AsReleasePrivate -> B).

Lemma preserves_ret {A : Type} (a : A) : preserves f (mret a).
Proof. intros p. eexists _, _, _. split; reflexivity. Qed.

Lemma preserves_g_log (msg : GLogMessage) : preserves f (g_log msg).
Proof. intros p. eexists _, _, _. split; reflexivity. Qed.

Lemma preserves_gets {A : Type} (g : AsReleasePrivate -> A) : preserves f (gets g).
Proof. intros p. eexists _, _, _. split; reflexivity. Qed.

Lemma preserves_modify (g : AsReleasePrivate -> AsReleasePrivate) :
  (forall p, f (g p) = f p) -> preserves f (modify g).
Proof. intros Hg p. eexists _, _, _. split; [reflexivity|]. apply Hg. Qed.

Lemma preserves_bind {A C : Type} (m : M A) (k : A -> M C) :
  preserves f m -> (forall a, preserves f (k a)) -> preserves f (m ≫= k).
Proof.
  intros Hm Hk p. cbv [mbind release_bind bind].
  destruct (Hm p) as (a & p1 & l1 & E1 & F1). rewrite E1.
  destruct (Hk a p1) as (c & p2 & l2 & E2 & F2). rewrite E2.
  eexists _, _, _. split; [reflexivity|]. congruence.
Qed.

Lemma preserves_for_each {A : Type} (l : list A) (body : A -> M unit) :
  (forall x, preserves f (body x)) -> preserves f (for_each l body).
Proof.
  intros Hb. induction l as [|x l IH]; simpl.
  - apply (preserves_ret tt).
  - apply (preserves_bind (body x) (fun _ => for_each l body)); [apply Hb|].
    intros _. exact IH.
Qed.

End Frames.

(** Solves [preserves f m] for straight-line code over the primitives. *)
Ltac frame :=
  repeat first
    [ apply preserves_ret
    | apply preserves_g_log
    | apply preserves_gets
    | apply preserves_modify; intros ?; reflexivity
    | apply preserves_bind; [|intros ?]
    | apply preserves_for_each; intros ?
    | match goal with
      | |- preserves _ (match ?x with _ => _ end) => destruct x eqn:?
      | |- preserves _ (if ?x then _ else _) => destruct x eqn:?
      | |- preserves _ (let '(_, _) := ?x in _) => destruct x eqn:?
      end ].

(** ** The XML loader *)

Section XmlLoader.
Context `{DateTimeOps} `{TreeOps}.

Lemma load_xml_artifact_frame (ctx : AsContext) (iter2 : xmlNode) :
  preserves (fun p => (attribute_fields p, priv_issues p)) (load_xml_artifact ctx iter2).
Proof. unfold load_xml_artifact, as_release_add_artifact. frame. Qed.

Lemma load_xml_description_frame (ctx : AsContext) (iter : xmlNode) :
  preserves (fun p => (attribute_fields p, priv_issues p)) (load_xml_description ctx iter).
Proof. unfold load_xml_description, as_release_set_description. frame. Qed.

Lemma load_xml_issue_attrs (ctx : AsContext) (iter2 : xmlNode) :
  preserves attribute_fields (load_xml_issue ctx iter2).
Proof. unfold load_xml_issue, as_release_add_issue. frame. Qed.

Lemma load_xml_issues_loop (ctx : AsContext) (l : list xmlNode) (p : AsReleasePrivate) :
  exists p' log,
    for_each l (load_xml_issue ctx) p = Returns tt p' log
    /\ attribute_fields p' = attribute_fields p
    /\ priv_issues p' = priv_issues p ++ omap (xml_issue_of ctx) l.
Proof.
  revert p. induction l as [|iter2 l IH]; intros p; simpl.
  - eexists _, _. rewrite app_nil_r. repeat split.
  - cbv [bind].
    assert (exists p1 l1, load_xml_issue ctx iter2 p = Returns tt p1 l1
              /\ attribute_fields p1 = attribute_fields p
              /\ priv_issues p1 = priv_issues p ++ option_list (xml_issue_of ctx iter2))
      as (p1 & l1 & E1 & A1 & I1).
    { unfold load_xml_issue, xml_issue_of, as_release_add_issue.
      destruct (xml_type iter2);
        try (eexists _, _; rewrite app_nil_r; repeat split).
      destruct (as_issue_load_from_xml as_issue_new ctx iter2) as [issue []];
        eexists _, _; simpl; rewrite ?app_nil_r; repeat split. }
    rewrite E1. destruct (IH p1) as (p2 & l2 & E2 & A2 & I2). rewrite E2.
    eexists _, _. split; [reflexivity|]. split; [congruence|].
    rewrite I2, I1, <- app_assoc. f_equal.
    destruct (xml_issue_of ctx iter2); reflexivity.
Qed.

Lemma load_xml_child_result (ctx : AsContext) (iter : xmlNode) (p : AsReleasePrivate) :
  exists p' log,
    load_xml_child ctx iter p = Returns tt p' log
    /\ attribute_fields p' = attribute_fields p
    /\ priv_issues p' = priv_issues p ++ xml_issues_of_child ctx iter.
Proof.
  assert (forall m : M unit,
             preserves (fun p => (attribute_fields p, priv_issues p)) m ->
             exists p' log, m p = Returns tt p' log
               /\ attribute_fields p' = attribute_fields p
               /\ priv_issues p' = priv_issues p ++ []) as Frame.
  { intros m Hm. destruct (Hm p) as ([] & p' & log & E & F).
    exists p', log. rewrite app_nil_r.
    split; [exact E|]. split; congruence. }
  unfold load_xml_child, xml_issues_of_child.
  destruct (xml_type iter); try (apply Frame; apply (preserves_ret _ tt)).
  rewrite !g_strcmp0_eq.
  destruct (decide (xml_name iter = "issues")) as [E|E].
  - rewrite E. rewrite (bool_decide_true ("issues" = "issues")) by reflexivity.
    rewrite !bool_decide_false by discriminate.
    rewrite (bool_decide_true (Some "issues" = Some "issues")) by reflexivity.
    apply load_xml_issues_loop.
  - rewrite (bool_decide_false (xml_name iter = "issues")) by assumption.
    rewrite (bool_decide_false (Some (xml_name iter) = Some "issues")) by congruence.
    apply Frame.
    repeat case_bool_decide.
    + apply preserves_for_each. intros ?. apply load_xml_artifact_frame.
    + apply load_xml_description_frame.
    + unfold as_release_set_url. frame.
    + apply (preserves_ret _ tt).
Qed.

Lemma load_xml_children_result (ctx : AsContext) (l : list xmlNode) (p : AsReleasePrivate) :
  exists p' log,
    for_each l (load_xml_child ctx) p = Returns tt p' log
    /\ attribute_fields p' = attribute_fields p
    /\ priv_issues p' = priv_issues p ++ flat_map (xml_issues_of_child ctx) l.
Proof.
  revert p. induction l as [|iter l IH]; intros p; simpl.
  - eexists _, _. rewrite app_nil_r. repeat split.
  - cbv [bind].
    destruct (load_xml_child_result ctx iter p) as (p1 & l1 & E1 & A1 & I1). rewrite E1.
    destruct (IH p1) as (p2 & l2 & E2 & A2 & I2). rewrite E2.
    eexists _, _. split; [reflexivity|]. split; [congruence|].
    rewrite I2, I1, <- app_assoc. reflexivity.
Qed.

(** The record after [as_release_load_from_xml], field by field, for any
    record before and any node: the load always returns [TRUE]; each
    attribute-borne field is given by the attributes of the node, and the
    issues are those before followed by the issues that loaded. *)
Lemma as_release_load_from_xml_result (priv : AsReleasePrivate) (ctx : AsContext)
    (node : xmlNode) :
  exists priv' log,
    as_release_load_from_xml ctx node priv = Returns true priv' log
    /\ priv_kind priv' =
       match as_xml_get_prop_value node "type" with
       | Some prop => as_release_kind_from_string (Some prop)
       | None => priv_kind priv
       end
    /\ priv_version priv' = as_xml_get_prop_value node "version"
    /\ priv_timestamp priv' =
       match as_xml_get_prop_value node "timestamp" with
       | Some prop => to_guint64 (atol prop)
       | None =>
           match as_xml_get_prop_value node "date" ≫= (fun d => as_iso8601_to_datetime (Some d)) with
           | Some time => to_guint64 (g_date_time_to_unix time)
           | None => priv_timestamp priv
           end
       end
    /\ priv_date priv' =
       match as_xml_get_prop_value node "date" with
       | Some d =>
           match as_iso8601_to_datetime (Some d) with
           | Some _ => Some d
           | None => priv_date priv
           end
       | None => priv_date priv
       end
    /\ priv_urgency priv' =
       match as_xml_get_prop_value node "urgency" with
       | Some prop => as_urgency_kind_from_string (Some prop)
       | None => priv_urgency priv
       end
    /\ priv_issues priv' = priv_issues priv ++ xml_loaded_issues ctx node
    /\ (forall d, as_xml_get_prop_value node "date" = Some d ->
                  as_iso8601_to_datetime (Some d) = None ->
        exists log',
          log = g_debug ("Invalid ISO-8601 date in releases at "
                         +:+ fmt_s (as_context_get_filename ctx)
                         +:+ " line " +:+ long_to_string (xml_line node)) :: log').
Proof.
  unfold as_release_load_from_xml, load_xml_date, xml_loaded_issues,
    as_release_set_context, as_release_set_version.
  destruct (as_xml_get_prop_value node "type") as [ty|];
  destruct (as_xml_get_prop_value node "version") as [ve|];
  destruct (as_xml_get_prop_value node "date") as [da|];
  try destruct (as_iso8601_to_datetime (Some da)) as [time|] eqn:P;
  destruct (as_xml_get_prop_value node "date_eol") as [de|];
  destruct (as_xml_get_prop_value node "timestamp") as [ts|];
  destruct (as_xml_get_prop_value node "urgency") as [ur|];
  cbv [mbind release_bind bind mret release_ret ret modify g_log option_bind];
  match goal with
  | |- context [for_each ?l ?b ?p] =>
      destruct (load_xml_children_result ctx l p) as (p' & log & E & A & I)
  end;
  rewrite E; unfold attribute_fields in A; simpl in A, I;
  injection A as A1 A2 A3 A4 A5 A6;
  eexists _, _; (split; [reflexivity|]);
  rewrite ?P; repeat (split; [assumption|]);
  intros d Hd Hp; try discriminate;
  injection Hd as <-; try congruence; eexists; reflexivity.
Qed.

(** C3. When the node carries a [date] attribute that parses and a
    [timestamp] attribute, the timestamp of the loaded record is the
    integer read from the [timestamp] attribute (converted to [guint64]),
    the date derived value being overwritten, and the date field holds the
    [date] attribute.  When the [date] attribute does not parse, the
    load still returns [TRUE], a debug message is logged, the date field
    is left as it was, and the timestamp is that of the [timestamp]
    attribute if there is one and the old one otherwise. *)
Theorem as_release_load_from_xml_timestamp_after_date (priv : AsReleasePrivate)
    (ctx : AsContext) (node : xmlNode) :
  exists priv' log,
    as_release_load_from_xml ctx node priv = Returns true priv' log
    /\ (forall (d v : string) (time : GDateTime),
          as_xml_get_prop_value node "date" = Some d ->
          as_iso8601_to_datetime (Some d) = Some time ->
          as_xml_get_prop_value node "timestamp" = Some v ->
          priv_timestamp priv' = to_guint64 (atol v) /\ priv_date priv' = Some d)
    /\ (forall d : string,
          as_xml_get_prop_value node "date" = Some d ->
          as_iso8601_to_datetime (Some d) = None ->
          (exists msg, msg ∈ log /\ log_level msg = G_LOG_LEVEL_DEBUG)
          /\ priv_date priv' = priv_date priv
          /\ priv_timestamp priv' =
             match as_xml_get_prop_value node "timestamp" with
             | Some v => to_guint64 (atol v)
             | None => priv_timestamp priv
             end).
Proof.
  destruct (as_release_load_from_xml_result priv ctx node)
    as (priv' & log & E & _ & _ & T & D & _ & _ & L).
  exists priv', log. split; [exact E|]. split.
  - intros d v time Hd Hp Hv. rewrite T, D, Hd, Hv, Hp. split; reflexivity.
  - intros d Hd Hp. split; [|split].
    + destruct (L d Hd Hp) as [log' ->]. eexists. split; [left|reflexivity].
    + rewrite D, Hd, Hp. reflexivity.
    + rewrite T, Hd. simpl. rewrite Hp. reflexivity.
Qed.

(** C6. [as_release_load_from_xml] returns [TRUE] for every node and every
    record.  The issues after the load are the issues before followed, in
    document order, by one issue for each element child of an [issues]
    element whose own load succeeded; a child whose load fails adds
    nothing.  In particular an [issues] block of one well-formed and one
    malformed element yields exactly one new issue, whichever comes first. *)
Theorem as_release_load_from_xml_succeeds_and_skips_failed_issues
    (priv : AsReleasePrivate) (ctx : AsContext) (node : xmlNode) :
  exists priv' log,
    as_release_load_from_xml ctx node priv = Returns true priv' log
    /\ priv_issues priv' = priv_issues priv ++ xml_loaded_issues ctx node
    /\ (forall (block good bad : xmlNode) (issue failed : AsIssue),
          xml_children node = [block] ->
          xml_type block = XML_ELEMENT_NODE -> xml_name block = "issues" ->
          xml_children block = [good; bad] \/ xml_children block = [bad; good] ->
          xml_type good = XML_ELEMENT_NODE -> xml_type bad = XML_ELEMENT_NODE ->
          as_issue_load_from_xml as_issue_new ctx good = (issue, true) ->
          as_issue_load_from_xml as_issue_new ctx bad = (failed, false) ->
          priv_issues priv' = priv_issues priv ++ [issue]).
Proof.
  destruct (as_release_load_from_xml_result priv ctx node)
    as (priv' & log & E & _ & _ & _ & _ & _ & I & _).
  exists priv', log. split; [exact E|]. split; [exact I|].
  intros block good bad issue failed Hn Ht Hname Hc Hg Hb Lg Lb.
  rewrite I. f_equal. unfold xml_loaded_issues, xml_issues_of_child.
  rewrite Hn. simpl. rewrite Ht, Hname.
  rewrite bool_decide_true by reflexivity. rewrite app_nil_r.
  destruct Hc as [-> | ->]; simpl; unfold xml_issue_of;
    rewrite Hg, Hb, Lg, Lb; reflexivity.
Qed.

(** C9. Loading from a node without a [version] attribute resets the
    version to [NULL], whatever it was: the version field after a load is
    always the [version] attribute of the node.  The kind and the urgency
    are only written when their attribute is present. *)
Theorem as_release_load_from_xml_resets_version (priv : AsReleasePrivate)
    (ctx : AsContext) (node : xmlNode) :
  as_xml_get_prop_value node "version" = None ->
  exists priv' log,
    as_release_load_from_xml ctx node priv = Returns true priv' log
    /\ priv_version priv' = None
    /\ (as_xml_get_prop_value node "type" = None -> priv_kind priv' = priv_kind priv)
    /\ (as_xml_get_prop_value node "urgency" = None ->
        priv_urgency priv' = priv_urgency priv).
Proof.
  intros Hv.
  destruct (as_release_load_from_xml_result priv ctx node)
    as (priv' & log & E & K & V & _ & _ & U & _).
  exists priv', log. split; [exact E|]. split; [congruence|]. split.
  - intros Ht. rewrite K, Ht. reflexivity.
  - intros Hu. rewrite U, Hu. reflexivity.
Qed.

End XmlLoader.

(** ** The emitters *)

Lemma assoc_lookup_app {V : Type} (key : string) (l1 l2 : list (string * V)) :
  assoc_lookup key (l1 ++ l2) =
  match assoc_lookup key l1 with
  | Some v => Some v
  | None => assoc_lookup key l2
  end.
Proof.
  induction l1 as [|[k v] l1 IH]; simpl; [reflexivity|].
  destruct (String.eqb k key); [reflexivity|exact IH].
Qed.

Section Emitters.
Context `{DateTimeOps} `{TreeOps}.

(** After the timestamp, the XML emitter adds at most the attributes
    [date_eol] and [urgency] to the release node. *)
Lemma xml_emit_rest_properties (ctx : AsContext) (priv : AsReleasePrivate) (subnode : xmlNode) :
  xml_properties (xml_emit_rest ctx priv subnode) =
  xml_properties subnode
  ++ match priv_date_eol priv with Some d => [("date_eol", d)] | None => [] end
  ++ match priv_urgency priv with
     | AS_URGENCY_KIND_UNKNOWN => []
     | urgency => [("urgency", as_urgency_kind_to_string urgency)]
     end.
Proof.
  unfold xml_emit_rest.
  destruct (priv_date_eol priv), (priv_urgency priv),
    (priv_url_details priv), (0 <? Z.of_nat (length (priv_issues priv))),
    (0 <? Z.of_nat (length (priv_artifacts priv)));
    simpl; rewrite <- ?app_assoc, ?app_nil_r; reflexivity.
Qed.

(** After the timestamp, the YAML emitter adds no [date] and no
    [unix-timestamp] entry. *)
Lemma yaml_emit_rest_lookup (ctx : AsContext) (priv : AsReleasePrivate)
    (emitter : list (string * YamlValue)) (key : string) :
  key = "date" \/ key = "unix-timestamp" ->
  assoc_lookup key (yaml_emit_rest ctx priv emitter) = assoc_lookup key emitter.
Proof.
  intros Hk. unfold yaml_emit_rest, as_yaml_emit_entry.
  destruct (priv_date_eol priv), (priv_urgency priv),
    (as_yaml_emit_long_localized_entry (priv_description priv)),
    (priv_url_details priv), (0 <? Z.of_nat (length (priv_issues priv))),
    (0 <? Z.of_nat (length (priv_artifacts priv)));
    rewrite ?assoc_lookup_app; destruct Hk as [-> | ->]; simpl;
    destruct (assoc_lookup _ emitter); reflexivity.
Qed.

(** C5, as the code has it. Both emitters return, leave the record alone,
    and produce a [release] node, resp. a mapping, in which: with a
    timestamp above 0 in catalog style the numeric field is present
    ([timestamp] attribute, [unix-timestamp] key) with the timestamp in
    decimal and there is no [date] field; with a timestamp above 0 in any
    other style there is no numeric field, and the [date] field is exactly
    what GLib formats for the timestamp: the ISO-8601 text when there is
    one, and no field at all when GLib yields none (an instant it does not
    represent); with timestamp 0 neither field is written. *)
Theorem timestamp_and_date_exclusive_on_emission (priv : AsReleasePrivate)
    (ctx : AsContext) (root : xmlNode) :
  exists (release_node : xmlNode) (entries : list (string * YamlValue)) xml_log yaml_log,
    as_release_to_xml_node ctx root priv =
      Returns (xml_add_children root [release_node]) priv xml_log
    /\ as_release_emit_yaml ctx priv = Returns (YamlMapping entries) priv yaml_log
    /\ (0 < priv_timestamp priv ->
        as_context_get_style ctx = AS_FORMAT_STYLE_CATALOG ->
        as_xml_get_prop_value release_node "timestamp"
          = Some (guint64_to_string (priv_timestamp priv))
        /\ as_xml_get_prop_value release_node "date" = None
        /\ assoc_lookup "unix-timestamp" entries
          = Some (YamlScalar (guint64_to_string (priv_timestamp priv)))
        /\ assoc_lookup "date" entries = None)
    /\ (0 < priv_timestamp priv ->
        as_context_get_style ctx <> AS_FORMAT_STYLE_CATALOG ->
        as_xml_get_prop_value release_node "timestamp" = None
        /\ as_xml_get_prop_value release_node "date"
          = iso8601_of_timestamp (priv_timestamp priv)
        /\ assoc_lookup "unix-timestamp" entries = None
        /\ assoc_lookup "date" entries
          = YamlScalar <$> iso8601_of_timestamp (priv_timestamp priv))
    /\ (priv_timestamp priv = 0 ->
        as_xml_get_prop_value release_node "timestamp" = None
        /\ as_xml_get_prop_value release_node "date" = None
        /\ assoc_lookup "unix-timestamp" entries = None
        /\ assoc_lookup "date" entries = None).
Proof.
  unfold as_release_to_xml_node, as_release_emit_yaml, xml_emit_timestamp,
    yaml_emit_timestamp, format_iso8601, iso8601_of_timestamp.
  cbv [mbind release_bind bind mret release_ret ret gets g_log].
  destruct (0 <? priv_timestamp priv) eqn:Hpos;
    [apply Z.ltb_lt in Hpos | apply Z.ltb_ge in Hpos];
  destruct (as_context_get_style ctx) eqn:Hstyle;
  try destruct (g_date_time_new_from_unix_utc (to_gint64 (priv_timestamp priv)))
    as [time|] eqn:Htime;
  try destruct (g_date_time_format_iso8601 time) as [text|] eqn:Htext;
  cbv [mbind release_bind bind mret release_ret ret gets g_log];
  eexists _, _, _, _;
  (split; [reflexivity|]); (split; [reflexivity|]);
  unfold as_xml_get_prop_value;
  rewrite !xml_emit_rest_properties, !yaml_emit_rest_lookup by auto;
  unfold as_xml_add_text_prop, as_yaml_emit_entry, as_yaml_emit_entry_timestamp;
  (split; [|split]); intros H1; try intros H2; try discriminate; try lia;
    try contradiction;
  destruct (priv_version priv), (priv_date_eol priv), (priv_urgency priv);
  repeat split; reflexivity.
Qed.

End Emitters.

(** ** The YAML loader *)

Section YamlLoader.
Context `{DateTimeOps} `{TreeOps}.

(** One entry of the mapping whose key is not [unix-timestamp]: the step
    returns, never touches the date field, and writes the timestamp only
    for a [date] key whose value parses. *)
Lemma load_yaml_entry_result (ctx : AsContext) (n : GNode) (p : AsReleasePrivate) :
  as_yaml_node_get_key n <> Some "unix-timestamp" ->
  exists p' log,
    load_yaml_entry ctx n p = Returns tt p' log
    /\ priv_date p' = priv_date p
    /\ priv_timestamp p' =
       if bool_decide (as_yaml_node_get_key n = Some "date") then
         match as_iso8601_to_datetime (as_yaml_node_get_value n) with
         | Some time => to_guint64 (g_date_time_to_unix time)
         | None => priv_timestamp p
         end
       else priv_timestamp p.
Proof.
  intros Hk. unfold load_yaml_entry.
  rewrite !g_strcmp0_eq. rewrite (bool_decide_false _ Hk).
  destruct (bool_decide (as_yaml_node_get_key n = Some "date")).
  - destruct (as_iso8601_to_datetime (as_yaml_node_get_value n));
      eexists _, _; repeat split.
  - assert (forall m : M unit,
               preserves (fun p => (priv_date p, priv_timestamp p)) m ->
               exists p' log, m p = Returns tt p' log
                 /\ priv_date p' = priv_date p
                 /\ priv_timestamp p' = priv_timestamp p) as Frame.
    { intros m Hm. destruct (Hm p) as ([] & p' & log & E & F).
      exists p', log. split; [exact E|]. split; congruence. }
    apply Frame.
    unfold as_release_set_date_eol, as_release_set_version, as_yaml_print_unknown.
    repeat match goal with
           | |- preserves _ (if ?b then _ else _) => destruct b
           end;
      try (apply preserves_for_each; intros ?);
      unfold load_yaml_url, as_release_set_url, load_yaml_issue, as_release_add_issue,
        load_yaml_artifact, as_release_add_artifact;
      frame.
Qed.

(** A run of entries without [unix-timestamp] key returns and keeps the
    date field; without [date] key it keeps the timestamp as well. *)
Lemma load_yaml_entries_frame (ctx : AsContext) (l : list GNode) (p : AsReleasePrivate) :
  Forall (fun n => as_yaml_node_get_key n <> Some "unix-timestamp") l ->
  exists p' log,
    for_each l (load_yaml_entry ctx) p = Returns tt p' log
    /\ priv_date p' = priv_date p
    /\ (Forall (fun n => as_yaml_node_get_key n <> Some "date") l ->
        priv_timestamp p' = priv_timestamp p).
Proof.
  revert p. induction l as [|n l IH]; intros p Hl; simpl.
  - eexists _, _. repeat split.
  - apply Forall_cons in Hl as [Hn Hl]. cbv [bind].
    destruct (load_yaml_entry_result ctx n p Hn) as (p1 & l1 & E1 & D1 & T1). rewrite E1.
    destruct (IH p1 Hl) as (p2 & l2 & E2 & D2 & T2). rewrite E2.
    eexists _, _. split; [reflexivity|]. split; [congruence|].
    intros Hd. apply Forall_cons in Hd as [Hdn Hdl].
    rewrite (T2 Hdl), T1. rewrite (bool_decide_false _ Hdn). reflexivity.
Qed.

(** C10. Loading a mapping without [unix-timestamp] key whose last [date]
    entry holds a text that parses returns [TRUE], sets the timestamp to
    the instant of that text, and leaves the date string as it was: on a
    new release, whose date is [NULL], it stays [NULL].  The YAML loader
    never writes the date string. *)
Theorem as_release_load_from_yaml_date_sets_timestamp_only (priv : AsReleasePrivate)
    (ctx : AsContext) (node : GNode) (before after : list GNode) (n : GNode)
    (time : GDateTime) :
  g_node_children node = before ++ n :: after ->
  Forall (fun m => as_yaml_node_get_key m <> Some "unix-timestamp") (g_node_children node) ->
  as_yaml_node_get_key n = Some "date" ->
  as_iso8601_to_datetime (as_yaml_node_get_value n) = Some time ->
  Forall (fun m => as_yaml_node_get_key m <> Some "date") after ->
  exists priv' log,
    as_release_load_from_yaml ctx node priv = Returns true priv' log
    /\ priv_timestamp priv' = to_guint64 (g_date_time_to_unix time)
    /\ priv_date priv' = priv_date priv
    /\ (priv_date priv = None -> priv_date priv' = None).
Proof.
  intros Hc Hut Hk Hp Hafter. rewrite Hc in Hut.
  unfold as_release_load_from_yaml, as_release_set_context. rewrite Hc.
  cbv [mbind release_bind bind mret release_ret ret modify].
  assert (forall p, exists p' log,
             for_each (before ++ n :: after) (load_yaml_entry ctx) p = Returns tt p' log
             /\ priv_timestamp p' = to_guint64 (g_date_time_to_unix time)
             /\ priv_date p' = priv_date p) as Loop.
  { clear Hc. induction before as [|b before IH]; intros p; simpl in *.
    - apply Forall_cons in Hut as [Hn Hl]. cbv [bind].
      destruct (load_yaml_entry_result ctx n p Hn) as (p1 & l1 & E1 & D1 & T1). rewrite E1.
      destruct (load_yaml_entries_frame ctx after p1 Hl) as (p2 & l2 & E2 & D2 & T2).
      rewrite E2. eexists _, _. split; [reflexivity|]. split; [|congruence].
      rewrite (T2 Hafter), T1, Hp. rewrite bool_decide_true by assumption. reflexivity.
    - apply Forall_cons in Hut as [Hb Hl]. cbv [bind].
      destruct (load_yaml_entry_result ctx b p Hb) as (p1 & l1 & E1 & D1 & T1). rewrite E1.
      destruct (IH Hl p1) as (p2 & l2 & E2 & T2 & D2). rewrite E2.
      eexists _, _. split; [reflexivity|]. split; [assumption|congruence]. }
  destruct (Loop (with_context (Some ctx) priv)) as (p' & log & E & T & D).
  rewrite E. eexists _, _. split; [reflexivity|]. split; [exact T|].
  simpl in D. split; [exact D|]. intros Hnone. congruence.
Qed.

End YamlLoader.

(** * Further properties of the release code *)

(** ** Decoders and accessors *)

(** X1. The release-kind decoder is exact: it answers [Stable] only for
    ["stable"], [Development] only for ["development"], and [Unknown] for
    everything else, [NULL] and differently cased or padded text included. *)
Theorem as_release_kind_from_string_exact (kind_str : option string) :
  (as_release_kind_from_string kind_str = AS_RELEASE_KIND_STABLE
   <-> kind_str = Some "stable")
  /\ (as_release_kind_from_string kind_str = AS_RELEASE_KIND_DEVELOPMENT
      <-> kind_str = Some "development")
  /\ (as_release_kind_from_string kind_str = AS_RELEASE_KIND_UNKNOWN
      <-> kind_str <> Some "stable" /\ kind_str <> Some "development").
Proof.
  unfold as_release_kind_from_string. rewrite !g_strcmp0_eq.
  repeat case_bool_decide; subst; (split; [|split]); split;
    try discriminate; try congruence; intuition congruence.
Qed.

(** X2. The urgency decoder is exact in the same way: each of the four
    named urgencies is the answer for its own name only, and [Unknown] is
    the answer exactly when the input is none of the four names. *)
Theorem as_urgency_kind_from_string_exact (urgency_kind : option string) :
  (as_urgency_kind_from_string urgency_kind = AS_URGENCY_KIND_LOW
   <-> urgency_kind = Some "low")
  /\ (as_urgency_kind_from_string urgency_kind = AS_URGENCY_KIND_MEDIUM
      <-> urgency_kind = Some "medium")
  /\ (as_urgency_kind_from_string urgency_kind = AS_URGENCY_KIND_HIGH
      <-> urgency_kind = Some "high")
  /\ (as_urgency_kind_from_string urgency_kind = AS_URGENCY_KIND_CRITICAL
      <-> urgency_kind = Some "critical")
  /\ (as_urgency_kind_from_string urgency_kind = AS_URGENCY_KIND_UNKNOWN
      <-> urgency_kind <> Some "low" /\ urgency_kind <> Some "medium"
          /\ urgency_kind <> Some "high" /\ urgency_kind <> Some "critical").
Proof.
  unfold as_urgency_kind_from_string. rewrite !g_strcmp0_eq.
  repeat case_bool_decide; subst; (split; [|split; [|split; [|split]]]); split;
    try discriminate; try congruence; intuition congruence.
Qed.

(** X3. The URL-kind codec round-trips on both of its values, and all
    three encoders give different names to different values. *)
Theorem url_kind_round_trip_and_names_distinct :
  (forall k : AsReleaseUrlKind,
      as_release_url_kind_from_string (Some (as_release_url_kind_to_string k)) = k)
  /\ (forall k1 k2 : AsReleaseUrlKind,
         as_release_url_kind_to_string k1 = as_release_url_kind_to_string k2 <-> k1 = k2)
  /\ (forall k1 k2 : AsReleaseKind,
         as_release_kind_to_string k1 = as_release_kind_to_string k2 <-> k1 = k2)
  /\ (forall u1 u2 : AsUrgencyKind,
         as_urgency_kind_to_string u1 = as_urgency_kind_to_string u2 <-> u1 = u2).
Proof.
  split; [|split; [|split]].
  - intros []; reflexivity.
  - intros [] []; split; intros E; try reflexivity; discriminate E.
  - intros [] []; split; intros E; try reflexivity; discriminate E.
  - intros [] []; split; intros E; try reflexivity; discriminate E.
Qed.

Section MoreAccessors.
Context `{DateTimeOps} `{TreeOps}.

(** X4. The setters guarded by [g_return_if_fail (... != NULL)] reject a
    [NULL] argument: [as_release_set_date], [as_release_set_date_eol] and
    [as_release_set_description] then return with the record untouched and
    exactly one message, at CRITICAL level. *)
Theorem null_arguments_are_rejected (priv : AsReleasePrivate) (locale : option string) :
  (exists msg,
      as_release_set_date None priv = Returns tt priv [msg]
      /\ log_level msg = G_LOG_LEVEL_CRITICAL)
  /\ (exists msg,
         as_release_set_date_eol None priv = Returns tt priv [msg]
         /\ log_level msg = G_LOG_LEVEL_CRITICAL)
  /\ (exists msg,
         as_release_set_description None locale priv = Returns tt priv [msg]
         /\ log_level msg = G_LOG_LEVEL_CRITICAL).
Proof. repeat split; eexists; split; reflexivity. Qed.

(** X5. [as_release_set_timestamp_eol] does nothing at all for the
    timestamp 0.  For any other timestamp it replaces [date_eol], and only
    [date_eol], by the ISO-8601 text of the instant; when GLib yields no
    text for the instant the old end-of-life date is lost ([NULL]). *)
Theorem as_release_set_timestamp_eol_cases (priv : AsReleasePrivate) (timestamp : Z) :
  (timestamp = 0 -> as_release_set_timestamp_eol timestamp priv = Returns tt priv [])
  /\ (timestamp <> 0 ->
      exists log,
        as_release_set_timestamp_eol timestamp priv
        = Returns tt (with_date_eol (iso8601_of_timestamp timestamp) priv) log
        /\ (iso8601_of_timestamp timestamp <> None -> log = [])).
Proof.
  unfold as_release_set_timestamp_eol, iso8601_of_timestamp, format_iso8601. split.
  - intros ->. reflexivity.
  - intros Hne. apply Z.eqb_neq in Hne. rewrite Hne.
    destruct (g_date_time_new_from_unix_utc (to_gint64 timestamp)) as [time|];
      eexists; (split; [reflexivity|]); [reflexivity | congruence].
Qed.

(** X6. Of the two setters of the release instant the last one called
    wins.  [as_release_set_date] after [as_release_set_timestamp] leaves
    the instant and the text of the date; [as_release_set_timestamp] after
    [as_release_set_date] leaves its own timestamp and replaces the text
    given before by the one GLib formats. *)
Theorem last_instant_setter_wins (priv : AsReleasePrivate) (date : string)
    (time : GDateTime) (timestamp : Z) :
  as_iso8601_to_datetime (Some date) = Some time ->
  (exists priv' log,
      (as_release_set_timestamp timestamp;; as_release_set_date (Some date)) priv
      = Returns tt priv' log
      /\ priv_timestamp priv' = to_guint64 (g_date_time_to_unix time)
      /\ priv_date priv' = Some date)
  /\ (exists priv' log,
         (as_release_set_date (Some date);; as_release_set_timestamp timestamp) priv
         = Returns tt priv' log
         /\ priv_timestamp priv' = timestamp
         /\ priv_date priv' = iso8601_of_timestamp timestamp).
Proof.
  intros P.
  unfold as_release_set_timestamp, as_release_set_date, format_iso8601, iso8601_of_timestamp.
  rewrite P. cbv [mbind release_bind bind mret release_ret ret modify g_log].
  destruct (g_date_time_new_from_unix_utc (to_gint64 timestamp)) as [t|];
    split; eexists _, _; repeat split.
Qed.

(** X7. The details URL is the only URL a release stores: what
    [as_release_set_url] stores for [Details] is what [as_release_get_url]
    returns for [Details]; for the kind [Unknown] the setter changes
    nothing and the getter answers [NULL] whatever was stored. *)
Theorem url_is_stored_for_details_only (priv : AsReleasePrivate) (url : option string) :
  (as_release_set_url AS_RELEASE_URL_KIND_DETAILS url;;
   as_release_get_url AS_RELEASE_URL_KIND_DETAILS) priv
  = Returns url (with_url_details url priv) []
  /\ as_release_set_url AS_RELEASE_URL_KIND_UNKNOWN url priv = Returns tt priv []
  /\ (as_release_set_url AS_RELEASE_URL_KIND_DETAILS url;;
      as_release_get_url AS_RELEASE_URL_KIND_UNKNOWN) priv
     = Returns None (with_url_details url priv) [].
Proof. repeat split. Qed.

End MoreAccessors.

(** ** The child stage of the XML loader, field by field *)

Lemma last_such_cons (test : xmlNode -> bool) (x : xmlNode) (l : list xmlNode) :
  last_such test (x :: l) =
  match last_such test l with
  | Some y => Some y
  | None => if test x then Some x else None
  end.
Proof.
  unfold last_such. simpl. destruct (test x).
  - rewrite last_cons. reflexivity.
  - destruct (last (List.filter test l)); reflexivity.
Qed.

Lemma bool_decide_some_string (a b : string) :
  bool_decide (Some a = Some b) = bool_decide (a = b).
Proof. apply bool_decide_ext. split; congruence. Qed.

Section XmlChildren.
Context `{DateTimeOps} `{TreeOps}.

Lemma with_issues_same (p : AsReleasePrivate) : with_issues (priv_issues p) p = p.
Proof. destruct p; reflexivity. Qed.

Lemma with_artifacts_same (p : AsReleasePrivate) : with_artifacts (priv_artifacts p) p = p.
Proof. destruct p; reflexivity. Qed.

(** The loop over an [issues] element only appends to the issues. *)
Lemma load_xml_issues_exact (ctx : AsContext) (l : list xmlNode) (p : AsReleasePrivate) :
  for_each l (load_xml_issue ctx) p =
  Returns tt (with_issues (priv_issues p ++ omap (xml_issue_of ctx) l) p) [].
Proof.
  revert p. induction l as [|iter2 l IH]; intros p; simpl.
  - rewrite app_nil_r, with_issues_same. reflexivity.
  - cbv [bind]. unfold load_xml_issue, xml_issue_of, as_release_add_issue.
    destruct (xml_type iter2);
      try (cbv [mret release_ret ret]; rewrite IH; reflexivity).
    destruct (as_issue_load_from_xml as_issue_new ctx iter2) as [issue []];
      cbv [mret release_ret ret modify]; rewrite IH; simpl;
      rewrite <- ?app_assoc; reflexivity.
Qed.

(** The loop over an [artifacts] element only appends to the artifacts. *)
Lemma load_xml_artifacts_exact (ctx : AsContext) (l : list xmlNode) (p : AsReleasePrivate) :
  for_each l (load_xml_artifact ctx) p =
  Returns tt (with_artifacts (priv_artifacts p ++ omap (xml_artifact_of ctx) l) p) [].
Proof.
  revert p. induction l as [|iter2 l IH]; intros p; simpl.
  - rewrite app_nil_r, with_artifacts_same. reflexivity.
  - cbv [bind]. unfold load_xml_artifact, xml_artifact_of, as_release_add_artifact.
    destruct (xml_type iter2);
      try (cbv [mret release_ret ret]; rewrite IH; reflexivity).
    destruct (as_artifact_load_from_xml as_artifact_new ctx iter2) as [artifact []];
      cbv [mret release_ret ret modify]; rewrite IH; simpl;
      rewrite <- ?app_assoc; reflexivity.
Qed.

(** One child of the release node: what each field is afterwards. *)
Lemma load_xml_child_fields (ctx : AsContext) (iter : xmlNode) (p : AsReleasePrivate) :
  priv_context p = Some ctx ->
  exists p' log,
    load_xml_child ctx iter p = Returns tt p' log
    /\ attribute_fields p' = attribute_fields p
    /\ priv_context p' = Some ctx
    /\ priv_issues p' = priv_issues p ++ xml_issues_of_child ctx iter
    /\ priv_artifacts p' = priv_artifacts p ++ xml_artifacts_of_child ctx iter
    /\ priv_url_details p' =
       (if xml_is_element_named "url" iter then as_xml_get_node_value iter
        else priv_url_details p)
    /\ priv_description p' =
       (if xml_is_element_named "description" iter then xml_description_of ctx iter
        else priv_description p)
    /\ priv_desc_translatable p' =
       (if xml_is_element_named "description" iter
        then xml_translatable_of ctx (priv_desc_translatable p) iter
        else priv_desc_translatable p)
    /\ (xml_child_is_handled iter = false -> p' = p /\ log = []).
Proof.
  intros Hc.
  unfold load_xml_child, xml_issues_of_child, xml_artifacts_of_child,
    xml_child_is_handled, xml_is_element_named.
  destruct (xml_type iter);
    try (exists p, []; rewrite !app_nil_r; repeat split; assumption).
  rewrite !g_strcmp0_eq, !bool_decide_some_string.
  destruct (decide (xml_name iter = "artifacts")) as [E|NA].
  { rewrite E. rewrite (bool_decide_true ("artifacts" = "artifacts")) by reflexivity.
    rewrite !bool_decide_false by discriminate.
    rewrite load_xml_artifacts_exact. eexists _, _. split; [reflexivity|].
    simpl. rewrite app_nil_r. repeat split; try assumption. discriminate. }
  rewrite (bool_decide_false _ NA).
  destruct (decide (xml_name iter = "description")) as [E|ND].
  { rewrite E. rewrite (bool_decide_true ("description" = "description")) by reflexivity.
    rewrite !bool_decide_false by discriminate.
    unfold load_xml_description, as_release_set_description, xml_description_of,
      xml_translatable_of.
    rewrite !app_nil_r, ?g_strcmp0_eq, ?bool_decide_some_string.
    destruct (as_context_get_style ctx);
      [ | | destruct (as_xml_get_node_locale_match ctx iter);
            [destruct (as_xml_dump_node_children iter)|] ];
      try destruct (as_xml_get_prop_value iter "translatable") as [prop|];
      cbv [mbind release_bind bind mret release_ret ret modify g_log];
      eexists _, _; (split; [reflexivity|]);
      cbn [attribute_fields priv_kind priv_version priv_description priv_timestamp
           priv_date priv_date_eol priv_context priv_desc_translatable priv_issues
           priv_artifacts priv_url_details priv_urgency
           with_description with_desc_translatable];
      rewrite ?Hc, ?g_strcmp0_eq, ?bool_decide_some_string;
      repeat split; try assumption; discriminate. }
  rewrite (bool_decide_false _ ND).
  destruct (decide (xml_name iter = "url")) as [E|NU].
  { rewrite E. rewrite (bool_decide_true ("url" = "url")) by reflexivity.
    rewrite !bool_decide_false by discriminate.
    eexists _, _. split; [reflexivity|]. simpl. rewrite !app_nil_r.
    repeat split; try assumption. discriminate. }
  rewrite (bool_decide_false _ NU).
  destruct (decide (xml_name iter = "issues")) as [E|NI].
  { rewrite E. rewrite (bool_decide_true ("issues" = "issues")) by reflexivity.
    rewrite load_xml_issues_exact. eexists _, _. split; [reflexivity|].
    simpl. rewrite app_nil_r. repeat split; try assumption. discriminate. }
  rewrite (bool_decide_false _ NI).
  exists p, []. rewrite !app_nil_r. repeat split; assumption.
Qed.

(** A child that is no element, or an element of another name, is
    skipped: nothing changes and nothing is logged. *)
Lemma load_xml_child_unhandled (ctx : AsContext) (iter : xmlNode) (p : AsReleasePrivate) :
  xml_child_is_handled iter = false -> load_xml_child ctx iter p = Returns tt p [].
Proof.
  unfold xml_child_is_handled, xml_is_element_named, load_xml_child.
  destruct (xml_type iter); try reflexivity.
  intros Hh. rewrite !g_strcmp0_eq, !bool_decide_some_string.
  apply orb_false_elim in Hh as [Hh H4]. apply orb_false_elim in Hh as [Hh H3].
  apply orb_false_elim in Hh as [H1 H2]. rewrite H1, H2, H3, H4. reflexivity.
Qed.

Lemma load_xml_children_filter (ctx : AsContext) (l : list xmlNode) (p : AsReleasePrivate) :
  for_each l (load_xml_child ctx) p
  = for_each (List.filter xml_child_is_handled l) (load_xml_child ctx) p.
Proof.
  revert p. induction l as [|iter l IH]; intros p; simpl; [reflexivity|].
  destruct (xml_child_is_handled iter) eqn:Hh; simpl; cbv [bind].
  - destruct (load_xml_child ctx iter p) as [[] p1 l1|]; [|reflexivity].
    rewrite IH. reflexivity.
  - rewrite (load_xml_child_unhandled ctx iter p Hh), IH.
    destruct (for_each _ _ p); reflexivity.
Qed.

(** The whole child stage: the lists grow by what loaded, and the URL,
    the description table and the translatable flag are those of the last
    [url], resp. [description], element. *)
Lemma load_xml_children_fields (ctx : AsContext) (l : list xmlNode) (p : AsReleasePrivate) :
  priv_context p = Some ctx ->
  exists p' log,
    for_each l (load_xml_child ctx) p = Returns tt p' log
    /\ attribute_fields p' = attribute_fields p
    /\ priv_context p' = Some ctx
    /\ priv_issues p' = priv_issues p ++ flat_map (xml_issues_of_child ctx) l
    /\ priv_artifacts p' = priv_artifacts p ++ flat_map (xml_artifacts_of_child ctx) l
    /\ priv_url_details p' =
       match last_such (xml_is_element_named "url") l with
       | Some u => as_xml_get_node_value u
       | None => priv_url_details p
       end
    /\ priv_description p' =
       match last_such (xml_is_element_named "description") l with
       | Some d => xml_description_of ctx d
       | None => priv_description p
       end
    /\ priv_desc_translatable p' =
       match last_such (xml_is_element_named "description") l with
       | Some d => xml_translatable_of ctx (priv_desc_translatable p) d
       | None => priv_desc_translatable p
       end.
Proof.
  revert p. induction l as [|iter l IH]; intros p Hc.
  - exists p, []. simpl. rewrite !app_nil_r. repeat split; assumption.
  - simpl for_each. cbv [bind].
    destruct (load_xml_child_fields ctx iter p Hc)
      as (p1 & l1 & E1 & A1 & C1 & I1 & R1 & U1 & D1 & T1 & _).
    rewrite E1.
    destruct (IH p1 C1) as (p2 & l2 & E2 & A2 & C2 & I2 & R2 & U2 & D2 & T2).
    rewrite E2. eexists _, _. split; [reflexivity|].
    split; [congruence|]. split; [assumption|].
    split; [rewrite I2, I1, <- app_assoc; reflexivity|].
    split; [rewrite R2, R1, <- app_assoc; reflexivity|].
    rewrite !last_such_cons, U2, D2, T2, U1, D1, T1.
    split; [|split].
    + destruct (last_such (xml_is_element_named "url") l),
        (xml_is_element_named "url" iter); reflexivity.
    + destruct (last_such (xml_is_element_named "description") l),
        (xml_is_element_named "description" iter); reflexivity.
    + unfold xml_translatable_of.
      destruct (last_such (xml_is_element_named "description") l),
        (xml_is_element_named "description" iter), (as_context_get_style ctx);
        reflexivity.
Qed.

(** The fields of the record after [as_release_load_from_xml] that the
    child stage and the [date_eol] attribute decide. *)
Lemma as_release_load_from_xml_fields (priv : AsReleasePrivate) (ctx : AsContext)
    (node : xmlNode) :
  exists priv' log,
    as_release_load_from_xml ctx node priv = Returns true priv' log
    /\ priv_context priv' = Some ctx
    /\ priv_date_eol priv' =
       match as_xml_get_prop_value node "date_eol" with
       | Some prop => Some prop
       | None => priv_date_eol priv
       end
    /\ priv_artifacts priv' = priv_artifacts priv ++ xml_loaded_artifacts ctx node
    /\ priv_url_details priv' =
       match last_such (xml_is_element_named "url") (xml_children node) with
       | Some u => as_xml_get_node_value u
       | None => priv_url_details priv
       end
    /\ priv_description priv' =
       match last_such (xml_is_element_named "description") (xml_children node) with
       | Some d => xml_description_of ctx d
       | None => priv_description priv
       end
    /\ priv_desc_translatable priv' =
       match last_such (xml_is_element_named "description") (xml_children node) with
       | Some d => xml_translatable_of ctx (priv_desc_translatable priv) d
       | None => priv_desc_translatable priv
       end.
Proof.
  unfold as_release_load_from_xml, load_xml_date, xml_loaded_artifacts,
    as_release_set_context, as_release_set_version.
  destruct (as_xml_get_prop_value node "type") as [ty|];
  destruct (as_xml_get_prop_value node "date") as [da|];
  try destruct (as_iso8601_to_datetime (Some da)) as [time|];
  destruct (as_xml_get_prop_value node "date_eol") as [de|];
  destruct (as_xml_get_prop_value node "timestamp") as [ts|];
  destruct (as_xml_get_prop_value node "urgency") as [ur|];
  cbv [mbind release_bind bind mret release_ret ret modify g_log];
  match goal with
  | |- context [for_each ?l ?b ?p] =>
      destruct (load_xml_children_fields ctx l p eq_refl)
        as (p' & log & E & A & C & I & R & U & D & T)
  end;
  rewrite E; unfold attribute_fields in A; simpl in A, R, U, D, T;
  injection A as A1 A2 A3 A4 A5 A6;
  eexists _, _; (split; [reflexivity|]); repeat split; assumption.
Qed.

End XmlChildren.

(** ** More on the XML loader *)

Lemma filter_none (test : xmlNode -> bool) (l : list xmlNode) :
  Forall (fun x => test x = false) l -> List.filter test l = [].
Proof.
  induction 1 as [|x l Hx _ IH]; simpl; [reflexivity|]. rewrite Hx. exact IH.
Qed.

Lemma last_such_last (test : xmlNode -> bool) (before after : list xmlNode) (u : xmlNode) :
  test u = true -> Forall (fun x => test x = false) after ->
  last_such test (before ++ u :: after) = Some u.
Proof.
  intros Hu Ha. unfold last_such. rewrite List.filter_app. simpl. rewrite Hu.
  rewrite (filter_none test after Ha). apply last_snoc.
Qed.

Section MoreXmlLoader.
Context `{DateTimeOps} `{TreeOps}.

(** X8. The artifacts after [as_release_load_from_xml] are those before
    followed, in document order, by one artifact for each element child
    of an [artifacts] element whose own load succeeded.  A child whose
    load fails is dropped and does not stop the load: one good and one
    failing child give exactly one new artifact, in either order. *)
Theorem as_release_load_from_xml_skips_failed_artifacts (priv : AsReleasePrivate)
    (ctx : AsContext) (node : xmlNode) :
  exists priv' log,
    as_release_load_from_xml ctx node priv = Returns true priv' log
    /\ priv_artifacts priv' = priv_artifacts priv ++ xml_loaded_artifacts ctx node
    /\ (forall (block good bad : xmlNode) (artifact failed : AsArtifact),
          xml_children node = [block] ->
          xml_type block = XML_ELEMENT_NODE -> xml_name block = "artifacts" ->
          xml_children block = [good; bad] \/ xml_children block = [bad; good] ->
          xml_type good = XML_ELEMENT_NODE -> xml_type bad = XML_ELEMENT_NODE ->
          as_artifact_load_from_xml as_artifact_new ctx good = (artifact, true) ->
          as_artifact_load_from_xml as_artifact_new ctx bad = (failed, false) ->
          priv_artifacts priv' = priv_artifacts priv ++ [artifact]).
Proof.
  destruct (as_release_load_from_xml_fields priv ctx node)
    as (priv' & log & E & _ & _ & R & _).
  exists priv', log. split; [exact E|]. split; [exact R|].
  intros block good bad artifact failed Hn Ht Hname Hc Hg Hb Lg Lb.
  rewrite R. f_equal.
  unfold xml_loaded_artifacts, xml_artifacts_of_child, xml_is_element_named.
  rewrite Hn. simpl. rewrite Ht, Hname.
  rewrite bool_decide_true by reflexivity. rewrite app_nil_r.
  destruct Hc as [-> | ->]; simpl; unfold xml_artifact_of;
    rewrite Hg, Hb, Lg, Lb; reflexivity.
Qed.

(** X9. Of several [url] elements below a release node the last one
    decides the details URL, also when it has no text, which clears the
    URL; without a [url] element the URL of the record is kept. *)
Theorem as_release_load_from_xml_last_url_wins (priv : AsReleasePrivate)
    (ctx : AsContext) (node : xmlNode) :
  exists priv' log,
    as_release_load_from_xml ctx node priv = Returns true priv' log
    /\ (forall (before after : list xmlNode) (u : xmlNode),
          xml_children node = before ++ u :: after ->
          xml_is_element_named "url" u = true ->
          Forall (fun n => xml_is_element_named "url" n = false) after ->
          priv_url_details priv' = as_xml_get_node_value u)
    /\ (Forall (fun n => xml_is_element_named "url" n = false) (xml_children node) ->
        priv_url_details priv' = priv_url_details priv).
Proof.
  destruct (as_release_load_from_xml_fields priv ctx node)
    as (priv' & log & E & _ & _ & _ & U & _).
  exists priv', log. split; [exact E|]. split.
  - intros before after u Hn Hu Ha.
    rewrite U, Hn, (last_such_last _ before after u Hu Ha). reflexivity.
  - intros Hall. rewrite U. unfold last_such.
    rewrite (filter_none _ _ Hall). reflexivity.
Qed.


(** X11. Children of the release node that are not elements (text,
    comments) and elements of any name other than [artifacts],
    [description], [url] and [issues] are ignored: the load gives the same
    record, the same messages and the same result as on the node without
    them. *)
Theorem as_release_load_from_xml_ignores_other_children (priv : AsReleasePrivate)
    (ctx : AsContext) (node : xmlNode) :
  as_release_load_from_xml ctx node priv
  = as_release_load_from_xml ctx
      (xml_with_children node (List.filter xml_child_is_handled (xml_children node))) priv.
Proof.
  unfold as_release_load_from_xml, load_xml_date, as_xml_get_prop_value,
    as_release_set_context, as_release_set_version.
  cbn [xml_with_children xml_properties xml_children xml_line].
  destruct (assoc_lookup "type" (xml_properties node)) as [ty|];
  destruct (assoc_lookup "date" (xml_properties node)) as [da|];
  try destruct (as_iso8601_to_datetime (Some da)) as [time|];
  destruct (assoc_lookup "date_eol" (xml_properties node)) as [de|];
  destruct (assoc_lookup "timestamp" (xml_properties node)) as [ts|];
  destruct (assoc_lookup "urgency" (xml_properties node)) as [ur|];
  cbv [mbind release_bind bind mret release_ret ret modify g_log];
  rewrite load_xml_children_filter; reflexivity.
Qed.

(** X12. A [type] or [urgency] attribute that is present always
    overwrites the field: a token the decoder does not know sets the kind,
    resp. the urgency, to [Unknown] whatever it was before, without any
    message about the attribute. *)
Theorem as_release_load_from_xml_unknown_token_resets (priv : AsReleasePrivate)
    (ctx : AsContext) (node : xmlNode) :
  exists priv' log,
    as_release_load_from_xml ctx node priv = Returns true priv' log
    /\ (forall t : string,
          as_xml_get_prop_value node "type" = Some t ->
          t <> "stable" -> t <> "development" ->
          priv_kind priv' = AS_RELEASE_KIND_UNKNOWN)
    /\ (forall u : string,
          as_xml_get_prop_value node "urgency" = Some u ->
          u <> "low" -> u <> "medium" -> u <> "high" -> u <> "critical" ->
          priv_urgency priv' = AS_URGENCY_KIND_UNKNOWN).
Proof.
  destruct (as_release_load_from_xml_result priv ctx node)
    as (priv' & log & E & K & _ & _ & _ & U & _).
  exists priv', log. split; [exact E|]. split.
  - intros t Ht N1 N2. rewrite K, Ht.
    apply as_release_kind_from_string_default; congruence.
  - intros u Hu N1 N2 N3 N4. rewrite U, Hu.
    apply as_urgency_kind_from_string_default; congruence.
Qed.

(** X13. The load binds the context to the record, and it takes a
    [date_eol] attribute as it is, without parsing it (unlike [date]): a
    [date_eol] that is no date is stored all the same and only shows when
    [as_release_get_timestamp_eol] is asked, which then answers 0 with a
    warning.  Without the attribute the end-of-life date is kept. *)
Theorem as_release_load_from_xml_takes_date_eol_unchecked (priv : AsReleasePrivate)
    (ctx : AsContext) (node : xmlNode) :
  exists priv' log,
    as_release_load_from_xml ctx node priv = Returns true priv' log
    /\ priv_context priv' = Some ctx
    /\ priv_date_eol priv' =
       match as_xml_get_prop_value node "date_eol" with
       | Some prop => Some prop
       | None => priv_date_eol priv
       end
    /\ (forall d : string,
          as_xml_get_prop_value node "date_eol" = Some d ->
          as_iso8601_to_datetime (Some d) = None ->
          exists msg,
            as_release_get_timestamp_eol priv' = Returns 0 priv' [msg]
            /\ log_level msg = G_LOG_LEVEL_WARNING).
Proof.
  destruct (as_release_load_from_xml_fields priv ctx node)
    as (priv' & log & E & C & D & _).
  exists priv', log. split; [exact E|]. split; [exact C|]. split; [exact D|].
  intros d Hd Hp. rewrite Hd in D.
  unfold as_release_get_timestamp_eol.
  cbv [mbind release_bind bind gets mret release_ret ret g_log].
  rewrite D, Hp. eexists. split; reflexivity.
Qed.

End MoreXmlLoader.

(** ** The emitted release node *)

Section MoreEmitters.
Context `{DateTimeOps} `{TreeOps}.

Lemma xml_emit_rest_shape (ctx : AsContext) (priv : AsReleasePrivate) (subnode : xmlNode) :
  xml_type (xml_emit_rest ctx priv subnode) = xml_type subnode
  /\ xml_name (xml_emit_rest ctx priv subnode) = xml_name subnode
  /\ xml_children (xml_emit_rest ctx priv subnode) =
     xml_children subnode
     ++ as_xml_add_description_node ctx (priv_description priv) (priv_desc_translatable priv)
     ++ match priv_url_details priv with
        | Some url =>
            [{| xml_type := XML_ELEMENT_NODE; xml_name := "url"; xml_properties := [];
                xml_children := []; xml_content := Some url; xml_line := 0 |}]
        | None => []
        end
     ++ match priv_issues priv with
        | [] => []
        | _ => [xml_issues_wrapper ctx (priv_issues priv)]
        end
     ++ match priv_artifacts priv with
        | [] => []
        | _ => [xml_artifacts_wrapper ctx (priv_artifacts priv)]
        end.
Proof.
  unfold xml_emit_rest, xml_issues_wrapper, xml_artifacts_wrapper.
  destruct (priv_date_eol priv), (priv_urgency priv), (priv_url_details priv),
    (priv_issues priv), (priv_artifacts priv);
    simpl; rewrite <- ?app_assoc, ?app_nil_r; repeat split; reflexivity.
Qed.

Lemma as_xml_add_text_prop_type (n : xmlNode) (name : string) (v : option string) :
  xml_type (as_xml_add_text_prop n name v) = xml_type n.
Proof. destruct v; reflexivity. Qed.

Lemma as_xml_add_text_prop_name (n : xmlNode) (name : string) (v : option string) :
  xml_name (as_xml_add_text_prop n name v) = xml_name n.
Proof. destruct v; reflexivity. Qed.

Lemma as_xml_add_text_prop_children (n : xmlNode) (name : string) (v : option string) :
  xml_children (as_xml_add_text_prop n name v) = xml_children n.
Proof. destruct v; reflexivity. Qed.

Lemma as_xml_add_text_prop_properties (n : xmlNode) (name : string) (v : option string) :
  xml_properties (as_xml_add_text_prop n name v) = xml_properties n ++ opt_attr name v.
Proof. destruct v; simpl; rewrite ?app_nil_r; reflexivity. Qed.

Lemma xml_emit_rest_attributes (ctx : AsContext) (priv : AsReleasePrivate) (subnode : xmlNode) :
  xml_properties (xml_emit_rest ctx priv subnode) =
  xml_properties subnode
  ++ opt_attr "date_eol" (priv_date_eol priv)
  ++ opt_attr "urgency" (urgency_text (priv_urgency priv)).
Proof.
  rewrite xml_emit_rest_properties.
  destruct (priv_date_eol priv), (priv_urgency priv); reflexivity.
Qed.

(** The release node [as_release_to_xml_node] appends, part by part. *)
Lemma as_release_to_xml_node_result (priv : AsReleasePrivate) (ctx : AsContext)
    (root : xmlNode) :
  exists release_node log,
    as_release_to_xml_node ctx root priv
    = Returns (xml_add_children root [release_node]) priv log
    /\ xml_type release_node = XML_ELEMENT_NODE
    /\ xml_name release_node = "release"
    /\ xml_properties release_node =
       [("type", as_release_kind_to_string (priv_kind priv))]
       ++ opt_attr "version" (priv_version priv)
       ++ xml_timestamp_attribute ctx (priv_timestamp priv)
       ++ opt_attr "date_eol" (priv_date_eol priv)
       ++ opt_attr "urgency" (urgency_text (priv_urgency priv))
    /\ xml_children release_node =
       as_xml_add_description_node ctx (priv_description priv) (priv_desc_translatable priv)
       ++ match priv_url_details priv with
          | Some url =>
              [{| xml_type := XML_ELEMENT_NODE; xml_name := "url"; xml_properties := [];
                  xml_children := []; xml_content := Some url; xml_line := 0 |}]
          | None => []
          end
       ++ match priv_issues priv with
          | [] => []
          | _ => [xml_issues_wrapper ctx (priv_issues priv)]
          end
       ++ match priv_artifacts priv with
          | [] => []
          | _ => [xml_artifacts_wrapper ctx (priv_artifacts priv)]
          end.
Proof.
  unfold as_release_to_xml_node, xml_emit_timestamp, xml_timestamp_attribute,
    format_iso8601, iso8601_of_timestamp.
  cbv [mbind release_bind bind mret release_ret ret gets g_log].
  destruct (0 <? priv_timestamp priv);
  destruct (as_context_get_style ctx);
  try destruct (g_date_time_new_from_unix_utc (to_gint64 (priv_timestamp priv)))
    as [time|];
  cbv [mbind release_bind bind mret release_ret ret gets g_log];
  eexists _, _; (split; [reflexivity|]);
  match goal with
  | |- context [xml_emit_rest ctx priv ?n] =>
      destruct (xml_emit_rest_shape ctx priv n) as (St & Sn & Sc)
  end;
  rewrite St, Sn, Sc, xml_emit_rest_attributes;
  rewrite ?as_xml_add_text_prop_type, ?as_xml_add_text_prop_name,
    ?as_xml_add_text_prop_children, ?as_xml_add_text_prop_properties;
  cbn [xml_new_node xml_type xml_name xml_children xml_properties opt_attr app];
  rewrite <- ?app_assoc, ?app_nil_r; repeat split; reflexivity.
Qed.

Lemma opt_attr_names (name : string) (v : option string) :
  map fst (opt_attr name v) `sublist_of` [name].
Proof. destruct v; simpl; [reflexivity|]. apply sublist_nil_l. Qed.

Lemma xml_timestamp_attribute_names (ctx : AsContext) (timestamp : Z) :
  map fst (xml_timestamp_attribute ctx timestamp) `sublist_of` ["timestamp"; "date"].
Proof.
  unfold xml_timestamp_attribute.
  destruct (0 <? timestamp); [|apply sublist_nil_l].
  destruct (as_context_get_style ctx);
    try (apply sublist_cons, opt_attr_names).
  simpl. apply sublist_skip, sublist_nil_l.
Qed.

(** X14. The release node [as_release_to_xml_node] appends to its parent
    is an element named [release] that always has a [type] attribute with
    the name of the kind; it has a [version], [date_eol] and [urgency]
    attribute exactly when the version is set, the end-of-life date is
    set, and the urgency is not [Unknown], each with the stored value; and
    no attribute name occurs twice on it. *)
Theorem as_release_to_xml_node_attributes (priv : AsReleasePrivate) (ctx : AsContext)
    (root : xmlNode) :
  exists release_node log,
    as_release_to_xml_node ctx root priv
    = Returns (xml_add_children root [release_node]) priv log
    /\ xml_type release_node = XML_ELEMENT_NODE
    /\ xml_name release_node = "release"
    /\ as_xml_get_prop_value release_node "type"
       = Some (as_release_kind_to_string (priv_kind priv))
    /\ as_xml_get_prop_value release_node "version" = priv_version priv
    /\ as_xml_get_prop_value release_node "date_eol" = priv_date_eol priv
    /\ as_xml_get_prop_value release_node "urgency" = urgency_text (priv_urgency priv)
    /\ NoDup (map fst (xml_properties release_node)).
Proof.
  destruct (as_release_to_xml_node_result priv ctx root)
    as (node & log & E & Ty & Nm & Pr & _).
  exists node, log. split; [exact E|]. split; [exact Ty|]. split; [exact Nm|].
  unfold as_xml_get_prop_value. rewrite Pr.
  split; [reflexivity|].
  assert (forall key, key = "version" \/ key = "date_eol" \/ key = "urgency" ->
                      assoc_lookup key (xml_timestamp_attribute ctx (priv_timestamp priv))
                      = None) as Ts.
  { intros key Hk. unfold xml_timestamp_attribute, opt_attr.
    destruct (0 <? priv_timestamp priv); [|reflexivity].
    destruct (as_context_get_style ctx);
      try destruct (iso8601_of_timestamp (priv_timestamp priv));
      destruct Hk as [-> | [-> | ->]]; reflexivity. }
  rewrite !assoc_lookup_app, !Ts by auto.
  split; [|split; [|split]];
    try (destruct (priv_version priv), (priv_date_eol priv),
           (urgency_text (priv_urgency priv)); reflexivity).
  apply (sublist_NoDup _ (["type"] ++ ["version"] ++ ["timestamp"; "date"]
                             ++ ["date_eol"] ++ ["urgency"])).
  - simpl.
    repeat (constructor; [rewrite ?elem_of_cons, elem_of_nil; intuition discriminate|]).
    constructor.
  - rewrite !List.map_app.
    repeat apply sublist_app;
      try apply opt_attr_names; try apply xml_timestamp_attribute_names.
    reflexivity.
Qed.

(** X15. Below the release node the emitter puts the description nodes
    first, then a [url] element if a details URL is stored, then an
    [issues] element if there is at least one issue, then an [artifacts]
    element if there is at least one artifact, each wrapper being filled by
    the issue, resp. artifact, writers in the order of the sequence.  An
    empty sequence gives no wrapper element at all. *)
Theorem as_release_to_xml_node_children (priv : AsReleasePrivate) (ctx : AsContext)
    (root : xmlNode) :
  exists release_node log,
    as_release_to_xml_node ctx root priv
    = Returns (xml_add_children root [release_node]) priv log
    /\ xml_children release_node =
       as_xml_add_description_node ctx (priv_description priv) (priv_desc_translatable priv)
       ++ match priv_url_details priv with
          | Some url =>
              [{| xml_type := XML_ELEMENT_NODE; xml_name := "url"; xml_properties := [];
                  xml_children := []; xml_content := Some url; xml_line := 0 |}]
          | None => []
          end
       ++ match priv_issues priv with
          | [] => []
          | _ => [xml_issues_wrapper ctx (priv_issues priv)]
          end
       ++ match priv_artifacts priv with
          | [] => []
          | _ => [xml_artifacts_wrapper ctx (priv_artifacts priv)]
          end
    /\ (priv_url_details priv = None -> priv_issues priv = [] -> priv_artifacts priv = [] ->
        xml_children release_node =
        as_xml_add_description_node ctx (priv_description priv)
          (priv_desc_translatable priv)).
Proof.
  destruct (as_release_to_xml_node_result priv ctx root)
    as (node & log & E & _ & _ & _ & Ch).
  exists node, log. split; [exact E|]. split; [exact Ch|].
  intros Hu Hi Ha. rewrite Ch, Hu, Hi, Ha, !app_nil_r. reflexivity.
Qed.

End MoreEmitters.

(** ** Decimal round trip: [atol] reads back what [printf] wrote *)

Lemma read_digits_of_uint_acc (d : Decimal.uint) (acc : positive) :
  read_digits (Z.pos acc) (NilEmpty.string_of_uint d) = Z.pos (Pos.of_uint_acc d acc).
Proof.
  revert acc. induction d as [|d IH|d IH|d IH|d IH|d IH|d IH|d IH|d IH|d IH|d IH];
    intros acc; [reflexivity|..];
    cbn [NilEmpty.string_of_uint read_digits Pos.of_uint_acc];
    match goal with
    | |- context [isdigit ?c] => change (isdigit c) with true; cbv iota
    end;
    rewrite <- IH; f_equal; vm_compute digit_value; lia.
Qed.

Lemma read_digits_of_uint (d : Decimal.uint) :
  read_digits 0 (NilEmpty.string_of_uint d) = Z.of_N (Pos.of_uint d).
Proof.
  induction d as [|d IH|d IH|d IH|d IH|d IH|d IH|d IH|d IH|d IH|d IH];
    [reflexivity|exact IH|..];
    cbn [NilEmpty.string_of_uint read_digits Pos.of_uint];
    match goal with
    | |- context [isdigit ?c] => change (isdigit c) with true; cbv iota
    end;
    match goal with
    | |- read_digits ?a _ = _ =>
        let v := eval vm_compute in a in
        change a with v
    end;
    apply read_digits_of_uint_acc.
Qed.

(** [atol] of the decimal text of a number that fits a [long] is the
    number. *)
Lemma atol_guint64_to_string (n : Z) :
  0 <= n <= LONG_MAX -> atol (guint64_to_string n) = n.
Proof.
  intros Hn. unfold guint64_to_string.
  assert (exists c s, NilZero.string_of_uint (N.to_uint (Z.to_N n)) = String c s
                      /\ isdigit c = true
                      /\ read_digits 0 (String c s) = n) as (c & s & E & Hc & R).
  { pose proof (read_digits_of_uint (N.to_uint (Z.to_N n))) as R.
    rewrite (DecimalN.Unsigned.of_to (Z.to_N n) : Pos.of_uint _ = _) in R.
    rewrite Z2N.id in R by lia.
    assert (N.to_uint (Z.to_N n) <> Decimal.Nil) as NN.
    { destruct (Z.to_N n); [discriminate|]. apply DecimalPos.Unsigned.to_uint_nonnil. }
    destruct (N.to_uint (Z.to_N n)) eqn:D; try contradiction;
      eexists _, _; (split; [reflexivity|]); (split; [reflexivity|]); exact R. }
  rewrite E. unfold atol.
  assert (skip_spaces (String c s) = String c s) as ->.
  { simpl. destruct (isspace c) eqn:Sp; [|reflexivity].
    exfalso. revert Hc Sp. unfold isdigit, isspace.
    generalize (N_of_ascii c). intros m. cbv zeta. intros Hd Hs.
    apply andb_true_iff in Hd as [H1 H2]. apply N.leb_le in H1, H2.
    apply orb_true_iff in Hs as [Hs|Hs]; [apply N.eqb_eq in Hs; lia|].
    apply andb_true_iff in Hs as [H3 H4]. apply N.leb_le in H3, H4. lia. }
  assert (c <> "-"%char /\ c <> "+"%char) as [Nm Np].
  { split; intros ->; discriminate Hc. }
  assert (match String c s with
          | String "-"%char s' => - read_digits 0 s'
          | String "+"%char s' => read_digits 0 s'
          | _ => read_digits 0 (String c s)
          end = read_digits 0 (String c s)) as ->.
  { destruct c as [[] [] [] [] [] [] [] []]; try reflexivity; contradiction. }
  rewrite R. unfold LONG_MIN. unfold LONG_MAX in *. lia.
Qed.

(** ** Emitting and loading again *)

Section RoundTrip.
Context `{DateTimeOps} `{TreeOps}.

(** X16. In catalog style the attribute-borne fields survive a round trip
    through XML: loading the release node that [as_release_to_xml_node]
    emitted into a new release gives back the kind, the version, the
    timestamp (for a timestamp that fits a [long]), the end-of-life date
    and the urgency.  The date string does not come back: the new release
    has none, whatever the emitted one had. *)
Theorem xml_catalog_round_trip (priv : AsReleasePrivate) (ctx : AsContext) (root : xmlNode) :
  as_context_get_style ctx = AS_FORMAT_STYLE_CATALOG ->
  0 <= priv_timestamp priv <= LONG_MAX ->
  exists release_node xml_log,
    as_release_to_xml_node ctx root priv
    = Returns (xml_add_children root [release_node]) priv xml_log
    /\ exists priv' log,
         as_release_load_from_xml ctx release_node as_release_init
         = Returns true priv' log
         /\ priv_kind priv' = priv_kind priv
         /\ priv_version priv' = priv_version priv
         /\ priv_timestamp priv' = priv_timestamp priv
         /\ priv_date_eol priv' = priv_date_eol priv
         /\ priv_urgency priv' = priv_urgency priv
         /\ priv_date priv' = None.
Proof.
  intros Hstyle Hts.
  destruct (as_release_to_xml_node_result priv ctx root)
    as (node & lx & E & _ & _ & Pr & _).
  exists node, lx. split; [exact E|].
  destruct (as_release_load_from_xml_result as_release_init ctx node)
    as (p' & log & EL & K & V & T & D & U & _).
  destruct (as_release_load_from_xml_fields as_release_init ctx node)
    as (p'' & log' & EL' & _ & DE & _).
  rewrite EL in EL'. injection EL' as <- _.
  exists p', log. split; [exact EL|].
  assert (as_xml_get_prop_value node "type"
          = Some (as_release_kind_to_string (priv_kind priv))) as Lt.
  { unfold as_xml_get_prop_value. rewrite Pr. reflexivity. }
  assert (as_xml_get_prop_value node "version" = priv_version priv
          /\ as_xml_get_prop_value node "date" = None
          /\ as_xml_get_prop_value node "date_eol" = priv_date_eol priv
          /\ as_xml_get_prop_value node "urgency" = urgency_text (priv_urgency priv)
          /\ as_xml_get_prop_value node "timestamp"
             = if 0 <? priv_timestamp priv
               then Some (guint64_to_string (priv_timestamp priv)) else None)
    as (Lv & Ld & Le & Lu & Ls).
  { unfold as_xml_get_prop_value. rewrite Pr.
    unfold xml_timestamp_attribute, opt_attr. rewrite Hstyle.
    destruct (0 <? priv_timestamp priv), (priv_version priv), (priv_date_eol priv),
      (urgency_text (priv_urgency priv)); repeat split; reflexivity. }
  rewrite Lt in K. rewrite Lv in V. rewrite Ls, Ld in T. rewrite Ld in D.
  rewrite Le in DE. rewrite Lu in U.
  split; [rewrite K; destruct (priv_kind priv); reflexivity|].
  split; [exact V|].
  split.
  { rewrite T. destruct (0 <? priv_timestamp priv) eqn:Hpos.
    - rewrite atol_guint64_to_string by exact Hts.
      unfold to_guint64. apply Z.mod_small. unfold LONG_MAX in Hts. lia.
    - apply Z.ltb_ge in Hpos. simpl. lia. }
  split; [rewrite DE; destruct (priv_date_eol priv); reflexivity|].
  split; [|exact D].
  rewrite U. destruct (priv_urgency priv); reflexivity.
Qed.

End RoundTrip.

(** ** More on the YAML mapper *)

Section MoreYaml.
Context `{DateTimeOps} `{TreeOps}.

Lemma with_url_details_same (p : AsReleasePrivate) :
  with_url_details (priv_url_details p) p = p.
Proof. destruct p; reflexivity. Qed.

(** One entry with a key the loader does not know: a debug message and
    nothing else. *)
Lemma load_yaml_entry_unknown (ctx : AsContext) (n : GNode) (p : AsReleasePrivate) :
  ~ In (as_yaml_node_get_key n) (map Some yaml_known_keys) ->
  exists msg,
    load_yaml_entry ctx n p = Returns tt p [msg] /\ log_level msg = G_LOG_LEVEL_DEBUG.
Proof.
  intros Hk. unfold load_yaml_entry. rewrite !g_strcmp0_eq.
  rewrite !bool_decide_false by (intros E; apply Hk; rewrite E; simpl; auto 12).
  eexists. split; reflexivity.
Qed.

(** X17. Keys the YAML loader does not know are reported and otherwise
    ignored: on a mapping made of such entries only (a [NULL] key counts)
    the load returns [TRUE], binds the context, changes no other field and
    logs exactly one debug message per entry. *)
Theorem as_release_load_from_yaml_ignores_unknown_keys (priv : AsReleasePrivate)
    (ctx : AsContext) (node : GNode) :
  Forall (fun n => ~ In (as_yaml_node_get_key n) (map Some yaml_known_keys))
    (g_node_children node) ->
  exists log,
    as_release_load_from_yaml ctx node priv
    = Returns true (with_context (Some ctx) priv) log
    /\ length log = length (g_node_children node)
    /\ Forall (fun msg => log_level msg = G_LOG_LEVEL_DEBUG) log.
Proof.
  intros Hall. unfold as_release_load_from_yaml, as_release_set_context.
  cbv [mbind release_bind bind mret release_ret ret modify].
  assert (forall p, exists log,
             for_each (g_node_children node) (load_yaml_entry ctx) p = Returns tt p log
             /\ length log = length (g_node_children node)
             /\ Forall (fun msg => log_level msg = G_LOG_LEVEL_DEBUG) log) as Loop.
  { induction Hall as [|n l Hn _ IH]; intros p; simpl.
    - exists []. repeat split. constructor.
    - cbv [bind]. destruct (load_yaml_entry_unknown ctx n p Hn) as (msg & E & Lv).
      rewrite E. destruct (IH p) as (log & E' & Len & Lvs). rewrite E'.
      exists (msg :: log). split; [reflexivity|]. split; [simpl; congruence|].
      constructor; assumption. }
  destruct (Loop (with_context (Some ctx) priv)) as (log & E & Len & Lvs).
  rewrite E. exists log. rewrite app_nil_r. repeat split; assumption.
Qed.

(** The loop over the entries of a [url] mapping: the last accepted entry
    decides the URL. *)
Lemma load_yaml_urls_exact (l : list GNode) (p : AsReleasePrivate) :
  for_each l load_yaml_url p =
  Returns tt
    (with_url_details
       (match last (List.filter yaml_url_accepted l) with
        | Some c => as_yaml_node_get_value c
        | None => priv_url_details p
        end) p) [].
Proof.
  revert p. induction l as [|c l IH]; intros p; simpl.
  - rewrite with_url_details_same. reflexivity.
  - cbv [bind].
    assert (load_yaml_url c p
            = Returns tt (if yaml_url_accepted c
                          then with_url_details (as_yaml_node_get_value c) p else p) [])
      as ->.
    { unfold load_yaml_url, yaml_url_accepted, as_release_url_kind_from_string,
        as_release_set_url.
      destruct (as_yaml_node_get_key c) as [k|]; [rewrite g_strcmp0_eq|];
        destruct (as_yaml_node_get_value c) as [v|];
        repeat case_bool_decide; try reflexivity; exfalso; intuition congruence. }
    rewrite IH. destruct (yaml_url_accepted c); simpl.
    + rewrite last_cons.
      destruct (last (List.filter yaml_url_accepted l)); reflexivity.
    + reflexivity.
Qed.

(** X18. In the [url] mapping of a YAML release an entry sets the details
    URL when its key is ["details"] or is absent and it has a value; every
    other entry is skipped.  The last such entry wins, and a mapping
    without one leaves the URL as it was.  Nothing else changes and
    nothing is logged. *)
Theorem load_yaml_url_mapping (ctx : AsContext) (n : GNode) (p : AsReleasePrivate) :
  as_yaml_node_get_key n = Some "url" ->
  load_yaml_entry ctx n p =
  Returns tt
    (with_url_details
       (match last (List.filter yaml_url_accepted (g_node_children n)) with
        | Some c => as_yaml_node_get_value c
        | None => priv_url_details p
        end) p) [].
Proof.
  intros Hk. unfold load_yaml_entry. rewrite Hk, !g_strcmp0_eq.
  rewrite !bool_decide_false by discriminate.
  rewrite bool_decide_true by reflexivity.
  apply load_yaml_urls_exact.
Qed.

(** X19. The items of a YAML [issues] or [artifacts] sequence are loaded
    one by one: each item whose own load succeeds is appended, in order,
    and an item whose load fails is dropped without a message and without
    stopping the loop.  No other field changes. *)
Theorem load_yaml_sequences_skip_failed_items (ctx : AsContext) (n : GNode)
    (p : AsReleasePrivate) :
  (as_yaml_node_get_key n = Some "issues" ->
   load_yaml_entry ctx n p =
   Returns tt
     (with_issues (priv_issues p ++ omap (yaml_issue_of ctx) (g_node_children n)) p) [])
  /\ (as_yaml_node_get_key n = Some "artifacts" ->
      load_yaml_entry ctx n p =
      Returns tt
        (with_artifacts
           (priv_artifacts p ++ omap (yaml_artifact_of ctx) (g_node_children n)) p) []).
Proof.
  split; intros Hk; unfold load_yaml_entry; rewrite Hk, !g_strcmp0_eq;
    rewrite !bool_decide_false by discriminate;
    rewrite bool_decide_true by reflexivity;
    generalize (g_node_children n); intros l; revert p;
    (induction l as [|sn l IH]; intros p; simpl;
     [rewrite app_nil_r, ?with_issues_same, ?with_artifacts_same; reflexivity|]);
    cbv [bind];
    unfold load_yaml_issue, yaml_issue_of, as_release_add_issue,
      load_yaml_artifact, yaml_artifact_of, as_release_add_artifact.
  - destruct (as_issue_load_from_yaml as_issue_new ctx sn) as [issue []];
      cbv [mret release_ret ret modify]; rewrite IH; simpl;
      rewrite <- ?app_assoc; reflexivity.
  - destruct (as_artifact_load_from_yaml as_artifact_new ctx sn) as [artifact []];
      cbv [mret release_ret ret modify]; rewrite IH; simpl;
      rewrite <- ?app_assoc; reflexivity.
Qed.

(** The keys the emitter adds after the timestamp, in order. *)
Lemma yaml_emit_rest_keys (ctx : AsContext) (priv : AsReleasePrivate)
    (emitter : list (string * YamlValue)) :
  exists tail,
    yaml_emit_rest ctx priv emitter = emitter ++ tail
    /\ map fst tail
       `sublist_of` ["date-eol"; "urgency"; "description"; "url"; "issues"; "artifacts"].
Proof.
  unfold yaml_emit_rest, as_yaml_emit_entry.
  destruct (priv_date_eol priv), (priv_urgency priv),
    (as_yaml_emit_long_localized_entry (priv_description priv)),
    (priv_url_details priv), (0 <? Z.of_nat (length (priv_issues priv))),
    (0 <? Z.of_nat (length (priv_artifacts priv)));
    eexists; (split; [rewrite <- ?app_assoc; try reflexivity;
                      symmetry; apply app_nil_r|]);
    simpl;
    repeat first [apply sublist_nil_l | apply sublist_skip | apply sublist_cons].
Qed.

Lemma assoc_lookup_key {V : Type} (k : string) (l : list (string * V)) (w : V) :
  assoc_lookup k l = Some w -> k ∈ map fst l.
Proof.
  induction l as [|[k' v'] l IH]; simpl; intros Hl; [discriminate|].
  destruct (String.eqb_spec k' k); [subst; left | right; apply IH, Hl].
Qed.

(** The entries after the timestamp hold no [type] and no [version]. *)
Lemma yaml_tail_lookup (tail : list (string * YamlValue)) :
  map fst tail
  `sublist_of` ["date-eol"; "urgency"; "description"; "url"; "issues"; "artifacts"] ->
  assoc_lookup "type" tail = None /\ assoc_lookup "version" tail = None.
Proof.
  intros Sub.
  split; (destruct (assoc_lookup _ tail) as [v|] eqn:L; [exfalso|reflexivity]);
    apply assoc_lookup_key in L; apply (elem_of_sublist _ _ _ L) in Sub;
    rewrite ?elem_of_cons, elem_of_nil in Sub; intuition discriminate.
Qed.

(** X20. [as_release_emit_yaml] writes its keys in one fixed order,
    [version], [type], [unix-timestamp] or [date], [date-eol], [urgency],
    [description], [url], [issues], [artifacts], leaving out those that
    have nothing to say; no key is written twice; [type] is always there
    with the name of the kind, and [version] exactly when a version is
    set. *)
Theorem as_release_emit_yaml_keys (priv : AsReleasePrivate) (ctx : AsContext) :
  exists entries log,
    as_release_emit_yaml ctx priv = Returns (YamlMapping entries) priv log
    /\ map fst entries `sublist_of` yaml_emitted_keys
    /\ NoDup (map fst entries)
    /\ assoc_lookup "type" entries
       = Some (YamlScalar (as_release_kind_to_string (priv_kind priv)))
    /\ assoc_lookup "version" entries = YamlScalar <$> priv_version priv.
Proof.
  assert (NoDup yaml_emitted_keys) as ND.
  { unfold yaml_emitted_keys.
    repeat (constructor; [rewrite ?elem_of_cons, elem_of_nil; intuition discriminate|]).
    constructor. }
  assert (forall entries : list (string * YamlValue),
             map fst entries `sublist_of` yaml_emitted_keys ->
             map fst entries `sublist_of` yaml_emitted_keys /\ NoDup (map fst entries))
    as Both.
  { intros entries Sub. split; [exact Sub|]. eapply sublist_NoDup; eassumption. }
  unfold as_release_emit_yaml, yaml_emit_timestamp, format_iso8601.
  cbv [mbind release_bind bind mret release_ret ret gets g_log].
  destruct (0 <? priv_timestamp priv);
  destruct (as_context_get_style ctx);
  try destruct (g_date_time_new_from_unix_utc (to_gint64 (priv_timestamp priv)))
    as [time|];
  try destruct (g_date_time_format_iso8601 time) as [text|];
  cbv [mbind release_bind bind mret release_ret ret gets g_log];
  match goal with
  | |- context [yaml_emit_rest ctx priv ?em] =>
      destruct (yaml_emit_rest_keys ctx priv em) as (tail & -> & Sub)
  end;
  destruct (yaml_tail_lookup tail Sub) as [Tt Tv];
  eexists _, _; (split; [reflexivity|]);
  unfold as_yaml_emit_entry, as_yaml_emit_entry_timestamp;
  destruct (priv_version priv);
  rewrite ?assoc_lookup_app, ?Tt, ?Tv;
  (match goal with |- ?S /\ _ => assert S as SubAll end;
   [ rewrite !List.map_app; unfold yaml_emitted_keys; simpl;
     repeat first [ exact Sub | apply sublist_skip | apply sublist_cons ]
   | destruct (Both _ SubAll) as [B1 B2];
     split; [exact B1|]; split; [exact B2|]; split; reflexivity ]).
Qed.

(** X21. The emitters never read the stored date string: what
    [as_release_to_xml_node] and [as_release_emit_yaml] produce, and what
    they log, is the same whatever text the date field holds.  The date
    that is written in non-catalog style is formatted from the timestamp. *)
Theorem emission_ignores_stored_date (priv : AsReleasePrivate) (ctx : AsContext)
    (root : xmlNode) (date : option string) :
  exists root' entries xml_log yaml_log,
    as_release_to_xml_node ctx root priv = Returns root' priv xml_log
    /\ as_release_to_xml_node ctx root (with_date date priv)
       = Returns root' (with_date date priv) xml_log
    /\ as_release_emit_yaml ctx priv = Returns entries priv yaml_log
    /\ as_release_emit_yaml ctx (with_date date priv)
       = Returns entries (with_date date priv) yaml_log.
Proof.
  unfold as_release_to_xml_node, as_release_emit_yaml, xml_emit_timestamp,
    yaml_emit_timestamp, format_iso8601.
  cbv [mbind release_bind bind mret release_ret ret gets g_log].
  cbn [priv_kind priv_version priv_timestamp with_date].
  destruct (0 <? priv_timestamp priv);
  destruct (as_context_get_style ctx);
  try destruct (g_date_time_new_from_unix_utc (to_gint64 (priv_timestamp priv)))
    as [time|];
  eexists _, _, _, _; repeat split; reflexivity.
Qed.

End MoreYaml.

(** ** Timestamps that the loaders store without the date string *)

Section LoaderTimestamps.
Context `{DateTimeOps} `{TreeOps}.

(** X22. The XML loader writes the date string only from a [date]
    attribute.  On a node without one the date string stays as it was,
    also when a [timestamp] attribute sets the timestamp: unlike
    [as_release_set_timestamp], the loader does not format a date for it,
    so the two fields need not name the same instant afterwards. *)
Theorem as_release_load_from_xml_timestamp_keeps_date (priv : AsReleasePrivate)
    (ctx : AsContext) (node : xmlNode) :
  as_xml_get_prop_value node "date" = None ->
  exists priv' log,
    as_release_load_from_xml ctx node priv = Returns true priv' log
    /\ priv_date priv' = priv_date priv
    /\ priv_timestamp priv' =
       match as_xml_get_prop_value node "timestamp" with
       | Some prop => to_guint64 (atol prop)
       | None => priv_timestamp priv
       end.
Proof.
  intros Hd.
  destruct (as_release_load_from_xml_result priv ctx node)
    as (priv' & log & E & _ & _ & T & D & _).
  exists priv', log. split; [exact E|].
  rewrite Hd in T, D. split; [exact D|exact T].
Qed.

(** One entry of a YAML mapping returns, and keeps the date string,
    unless it is a [unix-timestamp] key without value. *)
Lemma load_yaml_entry_defined (ctx : AsContext) (m : GNode) (p : AsReleasePrivate) :
  (as_yaml_node_get_key m = Some "unix-timestamp" -> as_yaml_node_get_value m <> None) ->
  exists p' log,
    load_yaml_entry ctx m p = Returns tt p' log /\ priv_date p' = priv_date p.
Proof.
  intros Hv.
  destruct (decide (as_yaml_node_get_key m = Some "unix-timestamp")) as [Hk|Hk].
  - unfold load_yaml_entry. rewrite g_strcmp0_eq, (bool_decide_true _ Hk).
    destruct (as_yaml_node_get_value m) as [v|]; [|destruct (Hv Hk); reflexivity].
    eexists _, _. split; reflexivity.
  - destruct (load_yaml_entry_result ctx m p Hk) as (p' & log & E & D & _).
    exists p', log. split; assumption.
Qed.

(** X23. In a YAML mapping the last of the [unix-timestamp] and [date]
    entries decides the timestamp: a [unix-timestamp] entry stores [atol]
    of its value, overriding what earlier entries stored, and never
    touches the date string. *)
Theorem as_release_load_from_yaml_unix_timestamp (priv : AsReleasePrivate)
    (ctx : AsContext) (node : GNode) (before after : list GNode) (n : GNode) (v : string) :
  g_node_children node = before ++ n :: after ->
  Forall (fun m => as_yaml_node_get_key m = Some "unix-timestamp" ->
                   as_yaml_node_get_value m <> None) before ->
  as_yaml_node_get_key n = Some "unix-timestamp" ->
  as_yaml_node_get_value n = Some v ->
  Forall (fun m => as_yaml_node_get_key m <> Some "unix-timestamp") after ->
  Forall (fun m => as_yaml_node_get_key m <> Some "date") after ->
  exists priv' log,
    as_release_load_from_yaml ctx node priv = Returns true priv' log
    /\ priv_timestamp priv' = to_guint64 (atol v)
    /\ priv_date priv' = priv_date priv.
Proof.
  intros Hc Hbefore Hk Hv Haf1 Haf2.
  unfold as_release_load_from_yaml, as_release_set_context. rewrite Hc.
  cbv [mbind release_bind bind mret release_ret ret modify].
  assert (forall p, exists p' log,
             for_each (before ++ n :: after) (load_yaml_entry ctx) p = Returns tt p' log
             /\ priv_timestamp p' = to_guint64 (atol v)
             /\ priv_date p' = priv_date p) as Loop.
  { clear Hc. induction Hbefore as [|b before Hb _ IH]; intros p; simpl.
    - cbv [bind].
      assert (load_yaml_entry ctx n p
              = Returns tt (with_timestamp (to_guint64 (atol v)) p) []) as ->.
      { unfold load_yaml_entry. rewrite Hk, Hv, g_strcmp0_eq.
        rewrite bool_decide_true by reflexivity. reflexivity. }
      destruct (load_yaml_entries_frame ctx after
                  (with_timestamp (to_guint64 (atol v)) p) Haf1)
        as (p2 & l2 & E2 & D2 & T2).
      rewrite E2. eexists _, _. split; [reflexivity|].
      split; [exact (T2 Haf2)|exact D2].
    - cbv [bind].
      destruct (load_yaml_entry_defined ctx b p Hb) as (p1 & l1 & E1 & D1). rewrite E1.
      destruct (IH p1) as (p2 & l2 & E2 & T2 & D2). rewrite E2.
      eexists _, _. split; [reflexivity|]. split; [assumption|congruence]. }
  destruct (Loop (with_context (Some ctx) priv)) as (p' & log & E & T & D).
  rewrite E. eexists _, _. split; [reflexivity|]. split; [exact T|exact D].
Qed.

End LoaderTimestamps.

(** * The properties evaluated on the reference collaborators *)

Module Evaluation.
Import Reference.

(** [release_2023] is what [as_release_set_date] makes of a new release. *)
Example release_2023_by_set_date :
  as_release_set_date (Some "2023-11-14") as_release_init = Returns tt release_2023 [].
Proof. reflexivity. Qed.

(** C1 fails on a dated release: after [as_release_set_timestamp (release, 0)]
    the date is no longer ["2023-11-14"] but the text of the epoch. *)
Lemma set_timestamp_zero_changes_date :
  exists priv' log,
    as_release_set_timestamp 0 release_2023 = Returns tt priv' log
    /\ priv_date release_2023 = Some "2023-11-14"
    /\ priv_date priv' = Some "1970-01-01T00:00:00Z"
    /\ priv_date priv' <> priv_date release_2023.
Proof.
  exists (with_date (Some "1970-01-01T00:00:00Z") (with_timestamp 0 release_2023)), [].
  split; [reflexivity|].
  split; [reflexivity|]. split; [reflexivity|]. simpl. discriminate.
Qed.

(** [as_release_set_date] on ["not-a-date"] and on ["2023-11-14"]. *)
Lemma as_release_set_date_cases_witness :
  (exists msg,
      as_release_set_date (Some "not-a-date") release_2023 = Returns tt release_2023 [msg]
      /\ log_level msg = G_LOG_LEVEL_WARNING)
  /\ (exists priv',
         as_release_set_date (Some "2023-11-14") as_release_init = Returns tt priv' []
         /\ priv_timestamp priv' = 1699920000
         /\ priv_date priv' = Some "2023-11-14").
Proof.
  split.
  - apply (proj1 (as_release_set_date_cases (H := date_time_ops) (H0 := tree_ops)
                    release_2023 "not-a-date")).
    reflexivity.
  - apply (proj2 (as_release_set_date_cases (H := date_time_ops) (H0 := tree_ops)
                    as_release_init "2023-11-14") 1699920000).
    reflexivity.
Defined.

(** [as_release_get_timestamp_eol] without an end-of-life date, with one
    that does not parse, and with 2030-01-01. *)
Lemma as_release_get_timestamp_eol_cases_witness :
  as_release_get_timestamp_eol as_release_init = Returns 0 as_release_init []
  /\ (exists msg,
         as_release_get_timestamp_eol (with_date_eol (Some "soon") as_release_init)
         = Returns 0 (with_date_eol (Some "soon") as_release_init) [msg]
         /\ log_level msg = G_LOG_LEVEL_WARNING)
  /\ as_release_get_timestamp_eol (with_date_eol (Some "2030-01-01") as_release_init)
     = Returns 1893456000 (with_date_eol (Some "2030-01-01") as_release_init) [].
Proof.
  split; [|split].
  - apply (proj1 (as_release_get_timestamp_eol_cases (H := date_time_ops) (H0 := tree_ops)
                    as_release_init)).
    reflexivity.
  - apply (proj1 (proj2 (as_release_get_timestamp_eol_cases
                           (H := date_time_ops) (H0 := tree_ops)
                           (with_date_eol (Some "soon") as_release_init))) "soon");
      reflexivity.
  - apply (proj1 (proj2 (proj2 (as_release_get_timestamp_eol_cases
                                  (H := date_time_ops) (H0 := tree_ops)
                                  (with_date_eol (Some "2030-01-01") as_release_init))))
             "2030-01-01" 1893456000);
      reflexivity.
Defined.

(** Loading a node with both attributes, and one whose [date] is not a date. *)
Lemma as_release_load_from_xml_timestamp_after_date_witness :
  (exists priv' log,
      as_release_load_from_xml catalog node_date_and_timestamp as_release_init
      = Returns true priv' log
      /\ priv_timestamp priv' = 1700000000
      /\ priv_date priv' = Some "2023-11-14")
  /\ (exists priv' log,
         as_release_load_from_xml catalog node_bad_date release_2023
         = Returns true priv' log
         /\ (exists msg, msg ∈ log /\ log_level msg = G_LOG_LEVEL_DEBUG)
         /\ priv_date priv' = Some "2023-11-14"
         /\ priv_timestamp priv' = 1699920000).
Proof.
  split.
  - destruct (as_release_load_from_xml_timestamp_after_date
                (H := date_time_ops) (H0 := tree_ops)
                as_release_init catalog node_date_and_timestamp)
      as (priv' & log & E & Both & _).
    exists priv', log. split; [exact E|].
    apply (Both "2023-11-14" "1700000000" 1699920000); reflexivity.
  - destruct (as_release_load_from_xml_timestamp_after_date
                (H := date_time_ops) (H0 := tree_ops)
                release_2023 catalog node_bad_date)
      as (priv' & log & E & _ & Bad).
    exists priv', log. split; [exact E|].
    apply (Bad "yesterday"); reflexivity.
Defined.

(** A release published at 1700000000, emitted in catalog and in metainfo style. *)
Lemma timestamp_and_date_exclusive_on_emission_witness :
  (exists release_node entries xml_log yaml_log,
      as_release_to_xml_node catalog (xml_new_node "releases") release_1700000000
      = Returns (xml_add_children (xml_new_node "releases") [release_node])
          release_1700000000 xml_log
      /\ as_release_emit_yaml catalog release_1700000000
         = Returns (YamlMapping entries) release_1700000000 yaml_log
      /\ as_xml_get_prop_value release_node "timestamp" = Some "1700000000"
      /\ as_xml_get_prop_value release_node "date" = None
      /\ assoc_lookup "unix-timestamp" entries = Some (YamlScalar "1700000000")
      /\ assoc_lookup "date" entries = None)
  /\ (exists release_node entries xml_log yaml_log,
         as_release_to_xml_node metainfo (xml_new_node "releases") release_1700000000
         = Returns (xml_add_children (xml_new_node "releases") [release_node])
             release_1700000000 xml_log
         /\ as_release_emit_yaml metainfo release_1700000000
            = Returns (YamlMapping entries) release_1700000000 yaml_log
         /\ as_xml_get_prop_value release_node "timestamp" = None
         /\ as_xml_get_prop_value release_node "date" = Some "2023-11-14T22:13:20Z"
         /\ assoc_lookup "unix-timestamp" entries = None
         /\ assoc_lookup "date" entries = Some (YamlScalar "2023-11-14T22:13:20Z")).
Proof.
  split.
  - destruct (timestamp_and_date_exclusive_on_emission
                (H := date_time_ops) (H0 := tree_ops)
                release_1700000000 catalog (xml_new_node "releases"))
      as (n & e & lx & ly & Ex & Ey & Cat & _ & _).
    exists n, e, lx, ly. split; [exact Ex|]. split; [exact Ey|].
    apply Cat; [simpl; lia | reflexivity].
  - destruct (timestamp_and_date_exclusive_on_emission
                (H := date_time_ops) (H0 := tree_ops)
                release_1700000000 metainfo (xml_new_node "releases"))
      as (n & e & lx & ly & Ex & Ey & _ & Other & _).
    exists n, e, lx, ly. split; [exact Ex|]. split; [exact Ey|].
    apply Other; [simpl; lia | discriminate].
Defined.

(** C5 fails past the year 9999: the timestamp is above 0 and the style is
    not catalog, yet neither emitter writes a [date] field (nor a numeric
    one), because GLib has no date-time for the instant and the writers
    are handed [NULL]. *)
Lemma emission_writes_no_date_for_year_10000 :
  0 < priv_timestamp release_year_10000
  /\ as_context_get_style metainfo <> AS_FORMAT_STYLE_CATALOG
  /\ exists release_node entries xml_log yaml_log,
       as_release_to_xml_node metainfo (xml_new_node "releases") release_year_10000
       = Returns (xml_add_children (xml_new_node "releases") [release_node])
           release_year_10000 xml_log
       /\ as_release_emit_yaml metainfo release_year_10000
          = Returns (YamlMapping entries) release_year_10000 yaml_log
       /\ xml_properties release_node = [("type", "stable"); ("version", "9.9")]
       /\ as_xml_get_prop_value release_node "date" = None
       /\ as_xml_get_prop_value release_node "timestamp" = None
       /\ map fst entries = ["version"; "type"]
       /\ assoc_lookup "date" entries = None
       /\ assoc_lookup "unix-timestamp" entries = None.
Proof.
  split; [reflexivity|]. split; [discriminate|].
  eexists _, _, _, _. split; [reflexivity|]. split; [reflexivity|].
  repeat split.
Qed.

(** An [issues] block of one issue that loads and one that does not. *)
Lemma as_release_load_from_xml_succeeds_and_skips_failed_issues_witness :
  exists priv' log,
    as_release_load_from_xml catalog node_issues as_release_init = Returns true priv' log
    /\ priv_issues priv' =
       [{| issue_id := Some "bz#1"; issue_url := Some "https://example.org/1" |}].
Proof.
  destruct (as_release_load_from_xml_succeeds_and_skips_failed_issues
              (H := date_time_ops) (H0 := tree_ops)
              as_release_init catalog node_issues)
    as (priv' & log & E & _ & One).
  exists priv', log. split; [exact E|].
  apply (One (element "issues" [] [issue_good; issue_bad] None) issue_good issue_bad
             {| issue_id := Some "bz#1"; issue_url := Some "https://example.org/1" |}
             {| issue_id := None; issue_url := None |});
    try reflexivity.
  left. reflexivity.
Defined.

(** A release that has version 1.0, loaded from a node without attributes. *)
Lemma as_release_load_from_xml_resets_version_witness :
  priv_version (with_version (Some "1.0") as_release_init) = Some "1.0"
  /\ exists priv' log,
       as_release_load_from_xml metainfo (element "release" [] [] None)
         (with_version (Some "1.0") as_release_init)
       = Returns true priv' log
       /\ priv_version priv' = None
       /\ priv_kind priv' = AS_RELEASE_KIND_STABLE
       /\ priv_urgency priv' = AS_URGENCY_KIND_UNKNOWN.
Proof.
  split; [reflexivity|].
  destruct (as_release_load_from_xml_resets_version
              (H := date_time_ops) (H0 := tree_ops)
              (with_version (Some "1.0") as_release_init) metainfo
              (element "release" [] [] None) eq_refl)
    as (priv' & log & E & V & K & U).
  exists priv', log. split; [exact E|]. split; [exact V|].
  split; [apply K | apply U]; reflexivity.
Defined.

(** A YAML release with a [date] key, loaded into a new release. *)
Lemma as_release_load_from_yaml_date_sets_timestamp_only_witness :
  exists priv' log,
    as_release_load_from_yaml metainfo yaml_dated as_release_init = Returns true priv' log
    /\ priv_timestamp priv' = 1699920000
    /\ priv_date priv' = None.
Proof.
  destruct (as_release_load_from_yaml_date_sets_timestamp_only
              (H := date_time_ops) (H0 := tree_ops)
              as_release_init metainfo yaml_dated
              [entry "version" "1.2"] [entry "type" "stable"] (entry "date" "2023-11-14")
              1699920000)
    as (priv' & log & E & T & D & _).
  - reflexivity.
  - repeat constructor; discriminate.
  - reflexivity.
  - reflexivity.
  - repeat constructor; discriminate.
  - exists priv', log. split; [exact E|]. split; [exact T|exact D].
Defined.

End Evaluation.

(** * The further properties evaluated on the reference collaborators *)

Module MoreEvaluation.
Import Reference MoreSamples.

(** End-of-life timestamps 0, 1893456000, and one past the year 9999. *)
Lemma as_release_set_timestamp_eol_cases_witness :
  as_release_set_timestamp_eol 0 (with_date_eol (Some "2030-01-01") as_release_init)
  = Returns tt (with_date_eol (Some "2030-01-01") as_release_init) []
  /\ (exists log,
         as_release_set_timestamp_eol 1893456000 as_release_init
         = Returns tt (with_date_eol (Some "2030-01-01T00:00:00Z") as_release_init) log
         /\ log = [])
  /\ (exists log,
         as_release_set_timestamp_eol 253402300800
           (with_date_eol (Some "2030-01-01") as_release_init)
         = Returns tt (with_date_eol None as_release_init) log).
Proof.
  split; [|split].
  - apply (proj1 (as_release_set_timestamp_eol_cases (H := date_time_ops) (H0 := tree_ops)
                    (with_date_eol (Some "2030-01-01") as_release_init) 0)).
    reflexivity.
  - destruct (proj2 (as_release_set_timestamp_eol_cases (H := date_time_ops) (H0 := tree_ops)
                       as_release_init 1893456000)) as (log & E & L); [discriminate|].
    exists log. split; [exact E|]. apply L. discriminate.
  - destruct (proj2 (as_release_set_timestamp_eol_cases (H := date_time_ops) (H0 := tree_ops)
                       (with_date_eol (Some "2030-01-01") as_release_init) 253402300800))
      as (log & E & _); [discriminate|].
    exists log. exact E.
Defined.

(** Timestamp 1700000000 and the date 2023-11-14, in both orders. *)
Lemma last_instant_setter_wins_witness :
  (exists priv' log,
      (as_release_set_timestamp 1700000000;; as_release_set_date (Some "2023-11-14"))
        as_release_init
      = Returns tt priv' log
      /\ priv_timestamp priv' = 1699920000
      /\ priv_date priv' = Some "2023-11-14")
  /\ (exists priv' log,
         (as_release_set_date (Some "2023-11-14");; as_release_set_timestamp 1700000000)
           as_release_init
         = Returns tt priv' log
         /\ priv_timestamp priv' = 1700000000
         /\ priv_date priv' = Some "2023-11-14T22:13:20Z").
Proof.
  apply (last_instant_setter_wins (H := date_time_ops) (H0 := tree_ops)
           as_release_init "2023-11-14" 1699920000 1700000000).
  reflexivity.
Defined.

(** The artifact without text is dropped, the other one is kept. *)
Lemma as_release_load_from_xml_skips_failed_artifacts_witness :
  exists priv' log,
    as_release_load_from_xml catalog node_artifacts as_release_init = Returns true priv' log
    /\ priv_artifacts priv' = [{| artifact_location := Some "https://example.org/a.tar" |}].
Proof.
  destruct (as_release_load_from_xml_skips_failed_artifacts
              (H := date_time_ops) (H0 := tree_ops)
              as_release_init catalog node_artifacts)
    as (priv' & log & E & _ & One).
  exists priv', log. split; [exact E|].
  apply (One (element "artifacts" [] [artifact_bad; artifact_good] None)
             artifact_good artifact_bad
             {| artifact_location := Some "https://example.org/a.tar" |}
             {| artifact_location := None |});
    try reflexivity.
  right. reflexivity.
Defined.

(** The second [url] element decides the URL. *)
Lemma as_release_load_from_xml_last_url_wins_witness :
  exists priv' log,
    as_release_load_from_xml catalog node_two_urls as_release_init = Returns true priv' log
    /\ priv_url_details priv' = Some "https://example.org/new".
Proof.
  destruct (as_release_load_from_xml_last_url_wins
              (H := date_time_ops) (H0 := tree_ops)
              as_release_init catalog node_two_urls)
    as (priv' & log & E & Last & _).
  exists priv', log. split; [exact E|].
  apply (Last [element "url" [] [] (Some "https://example.org/old");
               {| xml_type := XML_TEXT_NODE; xml_name := "text"; xml_properties := [];
                  xml_children := []; xml_content := Some " "; xml_line := 2 |}]
              [element "flavour" [] [] (Some "vanilla")]
              (element "url" [] [] (Some "https://example.org/new")));
    [reflexivity | reflexivity | repeat constructor].
Defined.


(** Tokens in the wrong case reset kind and urgency to [Unknown]. *)
Lemma as_release_load_from_xml_unknown_token_resets_witness :
  priv_kind release_full = AS_RELEASE_KIND_DEVELOPMENT
  /\ priv_urgency release_full = AS_URGENCY_KIND_HIGH
  /\ exists priv' log,
       as_release_load_from_xml metainfo node_unknown_tokens release_full
       = Returns true priv' log
       /\ priv_kind priv' = AS_RELEASE_KIND_UNKNOWN
       /\ priv_urgency priv' = AS_URGENCY_KIND_UNKNOWN.
Proof.
  split; [reflexivity|]. split; [reflexivity|].
  destruct (as_release_load_from_xml_unknown_token_resets
              (H := date_time_ops) (H0 := tree_ops)
              release_full metainfo node_unknown_tokens)
    as (priv' & log & E & K & U).
  exists priv', log. split; [exact E|]. split.
  - apply (K "Stable"); [reflexivity | discriminate | discriminate].
  - apply (U "urgent"); [reflexivity | discriminate..].
Defined.

(** An end-of-life date that is no date is stored and answers 0 later. *)
Lemma as_release_load_from_xml_takes_date_eol_unchecked_witness :
  exists priv' log msg,
    as_release_load_from_xml metainfo node_bad_date_eol as_release_init
    = Returns true priv' log
    /\ priv_date_eol priv' = Some "someday"
    /\ as_release_get_timestamp_eol priv' = Returns 0 priv' [msg]
    /\ log_level msg = G_LOG_LEVEL_WARNING.
Proof.
  destruct (as_release_load_from_xml_takes_date_eol_unchecked
              (H := date_time_ops) (H0 := tree_ops)
              as_release_init metainfo node_bad_date_eol)
    as (priv' & log & E & _ & D & G).
  destruct (G "someday" eq_refl eq_refl) as (msg & Eg & Lv).
  exists priv', log, msg. split; [exact E|]. split; [exact D|]. split; assumption.
Defined.

(** [release_full] emitted in catalog style and loaded again. *)
Lemma xml_catalog_round_trip_witness :
  exists release_node xml_log priv' log,
    as_release_to_xml_node catalog (xml_new_node "releases") release_full
    = Returns (xml_add_children (xml_new_node "releases") [release_node])
        release_full xml_log
    /\ as_release_load_from_xml catalog release_node as_release_init
       = Returns true priv' log
    /\ priv_kind priv' = AS_RELEASE_KIND_DEVELOPMENT
    /\ priv_version priv' = Some "2.0~rc1"
    /\ priv_timestamp priv' = 1700000000
    /\ priv_date_eol priv' = Some "2030-01-01"
    /\ priv_urgency priv' = AS_URGENCY_KIND_HIGH
    /\ priv_date priv' = None.
Proof.
  destruct (xml_catalog_round_trip (H := date_time_ops) (H0 := tree_ops)
              release_full catalog (xml_new_node "releases") eq_refl)
    as (node & lx & E & priv' & log & EL & Facts).
  - unfold LONG_MAX. simpl. lia.
  - exists node, lx, priv', log. split; [exact E|]. split; [exact EL|]. exact Facts.
Defined.

(** Two unknown keys: two debug messages, and only the context is set. *)
Lemma as_release_load_from_yaml_ignores_unknown_keys_witness :
  exists log,
    as_release_load_from_yaml metainfo yaml_unknown_keys release_full
    = Returns true (with_context (Some metainfo) release_full) log
    /\ length log = 2%nat.
Proof.
  destruct (as_release_load_from_yaml_ignores_unknown_keys
              (H := date_time_ops) (H0 := tree_ops)
              release_full metainfo yaml_unknown_keys) as (log & E & Len & _).
  - repeat constructor; simpl; intuition discriminate.
  - exists log. split; [exact E|exact Len].
Defined.

(** The entry without key comes last and wins over [details]. *)
Lemma load_yaml_url_mapping_witness :
  load_yaml_entry metainfo yaml_urls as_release_init
  = Returns tt (with_url_details (Some "https://example.org/keyless") as_release_init) [].
Proof.
  apply (load_yaml_url_mapping (H := date_time_ops) (H0 := tree_ops)
           metainfo yaml_urls as_release_init).
  reflexivity.
Defined.

(** The item without [id] is dropped, the other one is kept. *)
Lemma load_yaml_sequences_skip_failed_items_witness :
  load_yaml_entry metainfo yaml_issues as_release_init
  = Returns tt
      (with_issues [{| issue_id := Some "bz#1"; issue_url := None |}] as_release_init) [].
Proof.
  apply (proj1 (load_yaml_sequences_skip_failed_items (H := date_time_ops) (H0 := tree_ops)
                  metainfo yaml_issues as_release_init)).
  reflexivity.
Defined.

(** A timestamp attribute alone: the timestamp is set, the date is not. *)
Lemma as_release_load_from_xml_timestamp_keeps_date_witness :
  exists priv' log,
    as_release_load_from_xml catalog node_timestamp_only as_release_init
    = Returns true priv' log
    /\ priv_date priv' = None
    /\ priv_timestamp priv' = 1700000000.
Proof.
  apply (as_release_load_from_xml_timestamp_keeps_date
           (H := date_time_ops) (H0 := tree_ops)
           as_release_init catalog node_timestamp_only).
  reflexivity.
Defined.

(** [unix-timestamp] after [date]: the number wins. *)
Lemma as_release_load_from_yaml_unix_timestamp_witness :
  exists priv' log,
    as_release_load_from_yaml catalog yaml_date_then_timestamp as_release_init
    = Returns true priv' log
    /\ priv_timestamp priv' = 1700000000
    /\ priv_date priv' = None.
Proof.
  apply (as_release_load_from_yaml_unix_timestamp
           (H := date_time_ops) (H0 := tree_ops)
           as_release_init catalog yaml_date_then_timestamp
           [entry "date" "2023-11-14"] [entry "version" "1.2"]
           (entry "unix-timestamp" "1700000000") "1700000000");
    try reflexivity; repeat constructor; discriminate.
Defined.

End MoreEvaluation.
